(** * Price feeds of the market maker keeper

    A shallow embedding of [market_maker_keeper/price.py]: the price feed
    classes, their [get_price] accessors, the handlers run by their
    background threads, and the factory that selects a feed from the
    command line arguments.

    Conventions of the embedding.
    - A method that mutates [self] is a function from the object's fields to
      its result, the new fields and the list of effects it performed
      (log records, calls that leave the process, threads started).
    - What the outside world answers at a call (the clock, the file system,
      the oracle, a subprocess, a websocket frame) is an argument of the
      function that asks for it.
    - [time.time()] and [os.path.getmtime] are read as integers: clock ticks
      of a fixed resolution.  Only their order and differences are used. *)

From Stdlib Require Import ZArith List String Ascii Bool Lia.
Import ListNotations.

Local Open Scope string_scope.
Local Open Scope list_scope.
Local Open Scope Z_scope.

(** ** Numbers of [pymaker.numeric]

    The feeds hold prices as [Wad]s.  The class comes from [pymaker], a
    dependency of the keeper whose code is not part of it. *)

Module Wad.

(** Modelled from the spec: the [Wad] of [pymaker.numeric], "an
    arbitrary-precision decimal/fixed-point quantity".  It is held as one
    integer counting units of [10^-18]. *)
Definition t := Z.

Definition unit : Z := 10 ^ 18.

(** Modelled from the spec: [Wad(ray)] of [pymaker.numeric], which turns the
    27 decimals of a [Ray] into the 18 of a [Wad], rounding towards zero. *)
Definition of_ray (r : Z) : t := Z.quot r (10 ^ 9).

(** Modelled from the spec: the division of [pymaker.numeric], "base /
    scale" with "base price 100.0 and scale price 2.0" giving "50.0".
    Dividing by zero raises, which is [None]. *)
Definition div (a b : t) : option t :=
  if b =? 0 then None else Some (Z.quot (a * unit) b).

(** Modelled from the spec: [Wad.from_number] of [pymaker.numeric] on an
    integer. *)
Definition of_Z (n : Z) : t := n * unit.

(** [a == b] on two [Wad]s compares the integers. *)
Definition eqb (a b : t) : bool := a =? b.

End Wad.

(** Modelled from the spec: [Wad.from_number] of [pymaker.numeric] on the
    text of a plain decimal literal ([digits] or [digits.digits], with an
    optional leading minus), as in "[fixed:42.5] yields a feed whose
    [get_price()] is always [42.5]"; decimals past the 18th are cut off.
    The factory below takes the conversion as a parameter; this one is used
    where a concrete one is needed. *)

Definition digit_of (c : ascii) : option Z :=
  let n := Z.of_nat (nat_of_ascii c) in
  if (48 <=? n) && (n <=? 57) then Some (n - 48) else None.

Fixpoint read_fraction (s : string) (scale acc : Z) : option Z :=
  match s with
  | EmptyString => Some acc
  | String c s' =>
      match digit_of c with
      | Some d => read_fraction s' (scale / 10) (acc + d * (scale / 10))
      | None => None
      end
  end.

Fixpoint read_integral (s : string) (seen : bool) (acc : Z) : option Z :=
  match s with
  | EmptyString => if seen then Some (acc * Wad.unit) else None
  | String c s' =>
      match digit_of c with
      | Some d => read_integral s' true (acc * 10 + d)
      | None =>
          if (Ascii.eqb c "."%char) && seen
          then match s' with
               | EmptyString => None
               | _ => read_fraction s' Wad.unit (acc * Wad.unit)
               end
          else None
      end
  end.

(** Modelled from the spec: [Wad.from_number] on a plain decimal literal,
    see above. *)
Definition plain_decimal (s : string) : option Wad.t :=
  match s with
  | String "-"%char s' => option_map Z.opp (read_integral s' false 0)
  | _ => read_integral s false 0
  end.

(** ** Effects *)

Inductive level := Debug | Info | Warning.

(** Which feed a staleness record speaks about. *)
Inductive origin :=
| FromFile (filename : string)
| FromSetzer (source : string)
| FromGdax
| FromBibox.

(** The log records of the module, one constructor per format string. *)
Inductive record :=
| UsingFixedPrice (p : Wad.t)
| ReadPriceFrom (filename : string) (p : Wad.t)
| PriceFeedUpdated (p : Wad.t)
| FailedToRead (filename : string)
| HasExpired (o : origin)
| BecameAvailable (o : origin)
| FetchedPrice (source : string) (p : Wad.t)
| FailedToGetPrice (source : string) (tries : Z)
| PleaseCheckSetzer
| WsConnected
| WsDisconnected
| WsUnknownType (message : string)
| WsInvalidMessage (message : string)
| WsError
| GdaxPriceIs (p : Wad.t)
| BiboxPriceIs (p : Wad.t)
| BiboxFailed.

Inductive file_op := IsFile | OpenAndLoad | GetMTime.
Inductive chain_op := TubPip | ReadOracle | VoxPar.
Inductive thread := SetzerLoop (source : string) | GdaxLoop | BiboxLoop.

Inductive effect :=
| Log (l : level) (r : record)
| FileIO (op : file_op) (filename : string)
| ChainCall (op : chain_op)
| Subprocess (source : string)
| HttpCall (pair : string)
| WsSend (product_id : string)
| ThreadStart (th : thread)
| Sleep (seconds : Z).

(** Network and disk traffic. *)
Definition is_io (e : effect) : bool :=
  match e with
  | FileIO _ _ | ChainCall _ | Subprocess _ | HttpCall _ | WsSend _ => true
  | Log _ _ | ThreadStart _ | Sleep _ => false
  end.

(** The two records that report a flip of the [_expired] flag. *)
Inductive transition := Expired | Available.

Definition transition_of (e : effect) : option transition :=
  match e with
  | Log _ (HasExpired _) => Some Expired
  | Log _ (BecameAvailable _) => Some Available
  | _ => None
  end.

Fixpoint transitions (es : list effect) : list transition :=
  match es with
  | [] => []
  | e :: es' =>
      match transition_of e with
      | Some t => t :: transitions es'
      | None => transitions es'
      end
  end.

(** What [get_price] hands back: a price, [None], or an exception. *)
Inductive outcome :=
| Returned (p : option Wad.t)
| Raised.

(** ** FixedPriceFeed *)

Module FixedPriceFeed.

Record t := Build { fixed_price : Wad.t }.

Definition __init__ (fixed_price : Wad.t) : t * list effect :=
  (Build fixed_price, [Log Info (UsingFixedPrice fixed_price)]).

Definition get_price (self : t) : option Wad.t * t * list effect :=
  (Some (fixed_price self), self, []).

End FixedPriceFeed.

(** ** TubPriceFeed *)

Record Tub := { tub_web3 : string; tub_pip : string }.
Record Vox := { vox_address : string }.
Record DSValue := { ds_web3 : string; ds_address : string }.

Module TubPriceFeed.

Record t := Build { ds_value : DSValue }.

Definition __init__ (tub : Tub) : t * list effect :=
  (Build {| ds_web3 := tub_web3 tub; ds_address := tub_pip tub |},
   [ChainCall TubPip]).

(** [oracle] is what [read_as_int] answers; [None] when it raises. *)
Definition get_price (oracle : option Z) (self : t)
  : outcome * t * list effect :=
  match oracle with
  | Some v => (Returned (Some v), self, [ChainCall ReadOracle])
  | None => (Raised, self, [ChainCall ReadOracle])
  end.

End TubPriceFeed.

(** ** FilePriceFeed *)

(** What one pass through [_read_price] meets on disk. *)
Inductive file_obs :=
| NoFile                                   (* [os.path.isfile] is false *)
| Unreadable                               (* [open], [json.load], ['price'] or
                                              [Wad.from_number] raises *)
| Readable (new_price : Wad.t) (mtime : option Z).
                                           (* [mtime = None]: [getmtime] raises *)

Module FilePriceFeed.

Record t := Build {
  filename : string;
  expiry : Z;
  _price : option Wad.t;
  _timestamp : Z;
  _expired : bool
}.

Definition __init__ (filename : string) (expiry : Z) : t :=
  Build filename expiry None 0 true.

Definition set_reading (p : option Wad.t) (ts : Z) (self : t) : t :=
  Build (filename self) (expiry self) p ts (_expired self).

Definition set_expired (b : bool) (self : t) : t :=
  Build (filename self) (expiry self) (_price self) (_timestamp self) b.

Definition price_changed (new_price : Wad.t) (self : t) : bool :=
  match _price self with
  | None => true
  | Some old => negb (Wad.eqb new_price old)
  end.

Definition _read_price (obs : file_obs) (self : t) : t * list effect :=
  let f := filename self in
  match obs with
  | NoFile => (set_reading None 0 self, [FileIO IsFile f])
  | Unreadable =>
      (self, [FileIO IsFile f; FileIO OpenAndLoad f; Log Debug (FailedToRead f)])
  | Readable new_price mtime =>
      let seen :=
        [FileIO IsFile f; FileIO OpenAndLoad f; Log Debug (ReadPriceFrom f new_price)]
        ++ (if price_changed new_price self
            then [Log Info (PriceFeedUpdated new_price)] else []) in
      match mtime with
      | Some m =>
          (set_reading (Some new_price) m self, seen ++ [FileIO GetMTime f])
      | None =>
          (set_reading (Some new_price) (_timestamp self) self,
           seen ++ [FileIO GetMTime f; Log Debug (FailedToRead f)])
      end
  end.

Definition get_price (now : Z) (obs : file_obs) (self : t)
  : option Wad.t * t * list effect :=
  let '(self, io) := _read_price obs self in
  if now - _timestamp self >? expiry self then
    if negb (_expired self)
    then (None, set_expired true self,
          io ++ [Log Warning (HasExpired (FromFile (filename self)))])
    else (None, self, io)
  else
    if _expired self
    then (_price self, set_expired false self,
          io ++ [Log Info (BecameAvailable (FromFile (filename self)))])
    else (_price self, self, io).

End FilePriceFeed.

(** ** SetzerPriceFeed *)

Module SetzerPriceFeed.

Record t := Build {
  source : string;
  expiry : Z;
  _price : option Wad.t;
  _retries : Z;
  _timestamp : Z;
  _expired : bool
}.

Definition __init__ (source : string) (expiry : Z) : t * list effect :=
  (Build source expiry None 0 0 true, [ThreadStart (SetzerLoop source)]).

Definition set_expired (b : bool) (self : t) : t :=
  Build (source self) (expiry self) (_price self) (_retries self)
        (_timestamp self) b.

(** [answer] is what [Setzer().price(source)] gives; [None] when it
    raises.  [now] is the clock read after the answer came. *)
Definition _fetch_price (now : Z) (answer : option Wad.t) (self : t)
  : t * list effect :=
  match answer with
  | Some p =>
      (Build (source self) (expiry self) (Some p) 0 now false,
       [Subprocess (source self); Log Debug (FetchedPrice (source self) p)]
       ++ (if _expired self
           then [Log Info (BecameAvailable (FromSetzer (source self)))]
           else []))
  | None =>
      let retries := _retries self + 1 in
      (Build (source self) (expiry self) (_price self) retries
             (_timestamp self) (_expired self),
       Subprocess (source self)
       :: (if retries >? 10
           then [Log Warning (FailedToGetPrice (source self) retries);
                 Log Warning PleaseCheckSetzer]
           else []))
  end.

(** One turn of the loop of [_background_run]. *)
Definition _background_run (now : Z) (answer : option Wad.t) (self : t)
  : t * list effect :=
  let '(self, es) := _fetch_price now answer self in
  (self, es ++ [Sleep 5]).

Definition get_price (now : Z) (self : t) : option Wad.t * t * list effect :=
  if now - _timestamp self >? expiry self then
    if negb (_expired self)
    then (None, set_expired true self,
          [Log Warning (HasExpired (FromSetzer (source self)))])
    else (None, self, [])
  else (_price self, self, []).

End SetzerPriceFeed.

(** ** GdaxPriceFeed *)

(** A websocket frame as the handler sees it: the text, and what
    [json.loads] and the two subscripts make of it. *)
Inductive type_field :=
| TypeMissing                 (* [message_obj['type']] raises *)
| TypeIs (s : string)
| TypeNotString.              (* a number, a list, ...: equal to no literal *)

Record body := {
  msg_type : type_field;
  msg_price : option Wad.t    (* [Wad.from_number(message_obj['price'])];
                                 [None] when that raises *)
}.

Record frame := {
  raw : string;
  parsed : option body        (* [None] when [json.loads] raises *)
}.

Module GdaxPriceFeed.

Record t := Build {
  ws_url : string;
  product_id : string;
  expiry : Z;
  _last_price : option Wad.t;
  _last_timestamp : Z;
  _expired : bool
}.

Definition __init__ (ws_url product_id : string) (expiry : Z)
  : t * list effect :=
  (Build ws_url product_id expiry None 0 true, [ThreadStart GdaxLoop]).

Definition set_expired (b : bool) (self : t) : t :=
  Build (ws_url self) (product_id self) (expiry self) (_last_price self)
        (_last_timestamp self) b.

Definition _on_open (self : t) : t * list effect :=
  (self, [Log Info WsConnected; WsSend (product_id self)]).

Definition _on_close (self : t) : t * list effect :=
  (self, [Log Info WsDisconnected]).

Definition _on_error (self : t) : t * list effect :=
  (self, [Log Info WsError]).

(** [None] when the conversion of the price raises, which happens before
    anything is assigned. *)
Definition _process_ticker (now : Z) (message_obj : body) (self : t)
  : option (t * list effect) :=
  match msg_price message_obj with
  | None => None
  | Some p =>
      Some (Build (ws_url self) (product_id self) (expiry self) (Some p) now
                  false,
            Log Debug (GdaxPriceIs p)
            :: (if _expired self
                then [Log Info (BecameAvailable FromGdax)] else []))
  end.

Definition _process_heartbeat (now : Z) (self : t) : t :=
  Build (ws_url self) (product_id self) (expiry self) (_last_price self) now
        (_expired self).

Definition invalid (message : frame) (self : t) : t * list effect :=
  (self, [Log Warning (WsInvalidMessage (raw message))]).

Definition _on_message (now : Z) (message : frame) (self : t)
  : t * list effect :=
  match parsed message with
  | None => invalid message self
  | Some message_obj =>
      match msg_type message_obj with
      | TypeMissing => invalid message self
      | TypeIs ty =>
          if String.eqb ty "subscriptions" then (self, [])
          else if String.eqb ty "ticker" then
            match _process_ticker now message_obj self with
            | Some r => r
            | None => invalid message self
            end
          else if String.eqb ty "heartbeat" then
            (_process_heartbeat now self, [])
          else (self, [Log Warning (WsUnknownType (raw message))])
      | TypeNotString => (self, [Log Warning (WsUnknownType (raw message))])
      end
  end.

Definition get_price (now : Z) (self : t) : option Wad.t * t * list effect :=
  if now - _last_timestamp self >? expiry self then
    if negb (_expired self)
    then (None, set_expired true self, [Log Warning (HasExpired FromGdax)])
    else (None, self, [])
  else (_last_price self, self, []).

End GdaxPriceFeed.

(** ** BiboxPriceFeed *)

Record BiboxApi := { bibox_server : string }.

Module BiboxPriceFeed.

Record t := Build {
  bibox_api : BiboxApi;
  pair : string;
  expiry : Z;
  _last_price : option Wad.t;
  _last_timestamp : Z;
  _expired : bool
}.

Definition __init__ (bibox_api : BiboxApi) (pair : string) (expiry : Z)
  : t * list effect :=
  (Build bibox_api pair expiry None 0 true, [ThreadStart BiboxLoop]).

Definition set_expired (b : bool) (self : t) : t :=
  Build (bibox_api self) (pair self) (expiry self) (_last_price self)
        (_last_timestamp self) b.

(** One turn of the loop of [_background_run].  [answer] is the middle of
    the ticker's buy and sell as a [Wad]; [None] when the request or the
    conversion raises. *)
Definition _background_run (now : Z) (answer : option Wad.t) (self : t)
  : t * list effect :=
  match answer with
  | Some p =>
      (Build (bibox_api self) (pair self) (expiry self) (Some p) now false,
       [HttpCall (pair self); Log Debug (BiboxPriceIs p)]
       ++ (if _expired self
           then [Log Info (BecameAvailable FromBibox)] else [])
       ++ [Sleep 5])
  | None =>
      (self, [HttpCall (pair self); Log Warning BiboxFailed; Sleep 5])
  end.

Definition get_price (now : Z) (self : t) : option Wad.t * t * list effect :=
  if now - _last_timestamp self >? expiry self then
    if negb (_expired self)
    then (None, set_expired true self, [Log Warning (HasExpired FromBibox)])
    else (None, self, [])
  else (_last_price self, self, []).

End BiboxPriceFeed.

(** ** The feeds as one type, and [get_price] dispatched on the class

    [BiboxPriceFeed] does not derive from [PriceFeed] in the source, but has
    the same [get_price]; it stands with the others here. *)

Inductive PriceFeed :=
| FixedFeed (f : FixedPriceFeed.t)
| TubFeed (f : TubPriceFeed.t)
| ApplyTargetPrice (price_feed : PriceFeed) (vox : Vox)
| FileFeed (f : FilePriceFeed.t)
| SetzerFeed (f : SetzerPriceFeed.t)
| GdaxFeed (f : GdaxPriceFeed.t)
| BiboxFeed (f : BiboxPriceFeed.t).

(** What the world answers during one call of [get_price]. *)
Record world := {
  now : Z;                          (* [time.time()] *)
  disk : string -> file_obs;        (* the file under each name *)
  oracle : option Z;                (* [ds_value.read_as_int()] *)
  par : option Z                    (* [vox.par()], a [Ray]; [None]: raises *)
}.

Fixpoint get_price (w : world) (feed : PriceFeed)
  : outcome * PriceFeed * list effect :=
  match feed with
  | FixedFeed f =>
      let '(p, f, es) := FixedPriceFeed.get_price f in
      (Returned p, FixedFeed f, es)
  | TubFeed f =>
      let '(r, f, es) := TubPriceFeed.get_price (oracle w) f in
      (r, TubFeed f, es)
  | ApplyTargetPrice price_feed vox =>
      let '(r, price_feed, es) := get_price w price_feed in
      match r with
      | Raised => (Raised, ApplyTargetPrice price_feed vox, es)
      | Returned None => (Returned None, ApplyTargetPrice price_feed vox, es)
      | Returned (Some price) =>
          (match par w with
           | Some ray =>
               match Wad.div price (Wad.of_ray ray) with
               | Some q => Returned (Some q)
               | None => Raised
               end
           | None => Raised
           end,
           ApplyTargetPrice price_feed vox, es ++ [ChainCall VoxPar])
      end
  | FileFeed f =>
      let '(p, f, es) :=
        FilePriceFeed.get_price (now w) (disk w (FilePriceFeed.filename f)) f in
      (Returned p, FileFeed f, es)
  | SetzerFeed f =>
      let '(p, f, es) := SetzerPriceFeed.get_price (now w) f in
      (Returned p, SetzerFeed f, es)
  | GdaxFeed f =>
      let '(p, f, es) := GdaxPriceFeed.get_price (now w) f in
      (Returned p, GdaxFeed f, es)
  | BiboxFeed f =>
      let '(p, f, es) := BiboxPriceFeed.get_price (now w) f in
      (Returned p, BiboxFeed f, es)
  end.

(** The fields every feed with an expiry carries. *)
Definition has_expiry (feed : PriceFeed) : bool :=
  match feed with
  | FileFeed _ | SetzerFeed _ | GdaxFeed _ | BiboxFeed _ => true
  | _ => false
  end.

Definition expiry_of (feed : PriceFeed) : Z :=
  match feed with
  | FileFeed f => FilePriceFeed.expiry f
  | SetzerFeed f => SetzerPriceFeed.expiry f
  | GdaxFeed f => GdaxPriceFeed.expiry f
  | BiboxFeed f => BiboxPriceFeed.expiry f
  | _ => 0
  end.

Definition price_of (feed : PriceFeed) : option Wad.t :=
  match feed with
  | FileFeed f => FilePriceFeed._price f
  | SetzerFeed f => SetzerPriceFeed._price f
  | GdaxFeed f => GdaxPriceFeed._last_price f
  | BiboxFeed f => BiboxPriceFeed._last_price f
  | _ => None
  end.

Definition timestamp_of (feed : PriceFeed) : Z :=
  match feed with
  | FileFeed f => FilePriceFeed._timestamp f
  | SetzerFeed f => SetzerPriceFeed._timestamp f
  | GdaxFeed f => GdaxPriceFeed._last_timestamp f
  | BiboxFeed f => BiboxPriceFeed._last_timestamp f
  | _ => 0
  end.

Fixpoint expired_of (feed : PriceFeed) : bool :=
  match feed with
  | FileFeed f => FilePriceFeed._expired f
  | SetzerFeed f => SetzerPriceFeed._expired f
  | GdaxFeed f => GdaxPriceFeed._expired f
  | BiboxFeed f => BiboxPriceFeed._expired f
  | ApplyTargetPrice price_feed _ => expired_of price_feed
  | _ => true
  end.

(** ** What happens to a feed over time

    A feed object is touched by its own background thread and by the callers
    of [get_price].  An [event] is one such touch, run to its end. *)

Inductive event :=
| Call (w : world)                               (* [get_price()] *)
| Fetched (at_ : Z) (answer : option Wad.t)      (* a turn of a polling loop *)
| Message (at_ : Z) (message : frame)            (* [_on_message] *)
| Opened                                         (* [_on_open] *)
| Closed                                         (* [_on_close] *)
| Failed.                                        (* [_on_error] *)

Fixpoint handle (e : event) (feed : PriceFeed) : PriceFeed * list effect :=
  match e, feed with
  | Call w, _ => let '(_, feed, es) := get_price w feed in (feed, es)
  | Fetched t answer, SetzerFeed f =>
      let '(f, es) := SetzerPriceFeed._background_run t answer f in
      (SetzerFeed f, es)
  | Fetched t answer, BiboxFeed f =>
      let '(f, es) := BiboxPriceFeed._background_run t answer f in
      (BiboxFeed f, es)
  | Message t m, GdaxFeed f =>
      let '(f, es) := GdaxPriceFeed._on_message t m f in (GdaxFeed f, es)
  | Opened, GdaxFeed f =>
      let '(f, es) := GdaxPriceFeed._on_open f in (GdaxFeed f, es)
  | Closed, GdaxFeed f =>
      let '(f, es) := GdaxPriceFeed._on_close f in (GdaxFeed f, es)
  | Failed, GdaxFeed f =>
      let '(f, es) := GdaxPriceFeed._on_error f in (GdaxFeed f, es)
  | _, ApplyTargetPrice price_feed vox =>
      let '(price_feed, es) := handle e price_feed in
      (ApplyTargetPrice price_feed vox, es)
  | _, _ => (feed, [])
  end.

Fixpoint run (events : list event) (feed : PriceFeed)
  : PriceFeed * list effect :=
  match events with
  | [] => (feed, [])
  | e :: events' =>
      let '(feed, es) := handle e feed in
      let '(feed, es') := run events' feed in
      (feed, es ++ es')
  end.

(** ** PriceFeedFactory *)

(** [str.lower()].  A string is the UTF-8 text of the Python [str].

    Of all code points, [str.lower()] turns into ASCII only the letters A to
    Z, the Kelvin sign U+212A (bytes 226 132 170), which becomes [k], and
    the dotted capital I U+0130 (bytes 196 176), which becomes [i] followed
    by the combining dot U+0307 (bytes 204 135).  Every other code point
    outside ASCII is lowered to code points outside ASCII; those are left as
    they are, which no comparison with an ASCII literal can tell. *)
Definition lower_ascii (c : ascii) : ascii :=
  let n := nat_of_ascii c in
  if (Nat.leb 65 n && Nat.leb n 90)%bool then ascii_of_nat (n + 32) else c.

Definition is_byte (n : nat) (c : ascii) : bool :=
  Nat.eqb (nat_of_ascii c) n.

Fixpoint lower (s : string) : string :=
  match s with
  | EmptyString => EmptyString
  | String c s' =>
      if is_byte 226 c then
        match s' with
        | String c2 (String c3 s3) =>
            if (is_byte 132 c2 && is_byte 170 c3)%bool
            then String "k"%char (lower s3)
            else String c (lower s')
        | _ => String c (lower s')
        end
      else if is_byte 196 c then
        match s' with
        | String c2 s2 =>
            if is_byte 176 c2
            then String "i"%char
                   (String (ascii_of_nat 204)
                      (String (ascii_of_nat 135) (lower s2)))
            else String c (lower s')
        | EmptyString => String c EmptyString
        end
      else String (lower_ascii c) (lower s')
  end.

(** [s.startswith(p)] *)
Definition startswith (s p : string) : bool := String.prefix p s.

(** [s[n:]] *)
Fixpoint slice_from (n : nat) (s : string) : string :=
  match n, s with
  | O, _ => s
  | S n', String _ s' => slice_from n' s'
  | S _, EmptyString => EmptyString
  end.

Inductive error :=
| NoPriceFeed         (* the exception raised by the factory itself *)
| NotANumber.         (* [Wad.from_number] raising on the text after "fixed:" *)

Section Factory.

(** [Wad.from_number] on a string; [None] when it raises. *)
Variable from_number : string -> option Wad.t.

Definition create_price_feed
  (price_feed_argument : option string) (price_feed_expiry_argument : Z)
  (tub : option Tub) (vox : option Vox)
  : (error + PriceFeed) * list effect :=
  match price_feed_argument with
  | Some arg =>
      if String.eqb (lower arg) "gdax-websocket" then
        let '(f, es) :=
          GdaxPriceFeed.__init__ "wss://ws-feed.gdax.com" "ETH-USD"
                                 price_feed_expiry_argument in
        (inr (GdaxFeed f), es)
      else if startswith arg "fixed:" then
        match from_number (slice_from 6 arg) with
        | Some fixed_price =>
            let '(f, es) := FixedPriceFeed.__init__ fixed_price in
            (inr (FixedFeed f), es)
        | None => (inl NotANumber, [])
        end
      else if startswith arg "file:" then
        (inr (FileFeed (FilePriceFeed.__init__ (slice_from 5 arg)
                                              price_feed_expiry_argument)),
         [])
      else
        let '(f, es) :=
          SetzerPriceFeed.__init__ arg price_feed_expiry_argument in
        (inr (SetzerFeed f), es)
  | None =>
      match tub with
      | Some tub =>
          let '(f, es) := TubPriceFeed.__init__ tub in (inr (TubFeed f), es)
      | None => (inl NoPriceFeed, [])
      end
  end.

End Factory.

Definition is_thread_start (e : effect) : bool :=
  match e with ThreadStart _ => true | _ => false end.

(** ** The reading a feed has published, told from its history *)

(** The kinds of frame the stream carries, read off the discriminator. *)
Inductive frame_kind :=
| Subscriptions
| Ticker (p : Wad.t)
| Heartbeat
| Unrecognized
| Malformed.

Definition classify (m : frame) : frame_kind :=
  match parsed m with
  | None => Malformed
  | Some b =>
      match msg_type b with
      | TypeMissing => Malformed
      | TypeNotString => Unrecognized
      | TypeIs ty =>
          if String.eqb ty "ticker" then
            match msg_price b with Some p => Ticker p | None => Malformed end
          else if String.eqb ty "heartbeat" then Heartbeat
          else if String.eqb ty "subscriptions" then Subscriptions
          else Unrecognized
      end
  end.

(** A reading: the price and the instant it was observed at. *)
Definition reading : Type := option Wad.t * Z.

Definition unset : reading := (None, 0).

Definition reading_of (feed : PriceFeed) : reading :=
  (price_of feed, timestamp_of feed).

(** What an event publishes into the reading [r] of a feed of the class of
    [feed]: a poll that succeeded, a ticker or a heartbeat, a look at the
    file. *)
Definition publish (feed : PriceFeed) (r : reading) (e : event) : reading :=
  match feed, e with
  | FileFeed f, Call w =>
      match disk w (FilePriceFeed.filename f) with
      | NoFile => unset
      | Unreadable => r
      | Readable p (Some mtime) => (Some p, mtime)
      | Readable p None => (Some p, snd r)
      end
  | SetzerFeed _, Fetched t (Some p) => (Some p, t)
  | BiboxFeed _, Fetched t (Some p) => (Some p, t)
  | GdaxFeed _, Message t m =>
      match classify m with
      | Ticker p => (Some p, t)
      | Heartbeat => (fst r, t)
      | _ => r
      end
  | _, _ => r
  end.

Definition last_published (feed : PriceFeed) (events : list event) : reading :=
  fold_left (publish feed) events (reading_of feed).

(** The answer the expiry rule gives for a reading. *)
Definition unless_expired (now_ expiry : Z) (r : reading) : option Wad.t :=
  if now_ - snd r >? expiry then None else fst r.

(** A call publishes a reading only by finding the file readable. *)
Definition finds_a_price (w : world) (feed : PriceFeed) : bool :=
  match feed with
  | FileFeed f =>
      match disk w (FilePriceFeed.filename f) with
      | Readable _ _ => true
      | _ => false
      end
  | _ => false
  end.

(** ** Staleness records against the flag *)

(** The records in [ts] take turns, starting with the one that leaves the
    state [expired]. *)
Fixpoint alternates (expired : bool) (ts : list transition) : bool :=
  match ts with
  | [] => true
  | Available :: ts' => expired && alternates false ts'
  | Expired :: ts' => negb expired && alternates true ts'
  end.

(** The record that goes with the flag moving from [before] to [after]. *)
Definition flip (before after : bool) : list transition :=
  match before, after with
  | true, false => [Available]
  | false, true => [Expired]
  | _, _ => []
  end.

(** ** What a call may touch *)

(** The feeds whose [get_price] only looks at fields of the object. *)
Definition answers_from_memory (feed : PriceFeed) : bool :=
  match feed with
  | FixedFeed _ | SetzerFeed _ | GdaxFeed _ | BiboxFeed _ => true
  | TubFeed _ | FileFeed _ | ApplyTargetPrice _ _ => false
  end.

Definition is_on_chain (feed : PriceFeed) : bool :=
  match feed with TubFeed _ => true | _ => false end.

Definition mark_expired (feed : PriceFeed) : PriceFeed :=
  match feed with
  | SetzerFeed f => SetzerFeed (SetzerPriceFeed.set_expired true f)
  | GdaxFeed f => GdaxFeed (GdaxPriceFeed.set_expired true f)
  | BiboxFeed f => BiboxFeed (BiboxPriceFeed.set_expired true f)
  | FileFeed f => FileFeed (FilePriceFeed.set_expired true f)
  | _ => feed
  end.

Definition is_expiry_record (e : effect) : bool :=
  match e with
  | Log Warning (HasExpired _) => true
  | _ => false
  end.

Definition is_log (e : effect) : bool :=
  match e with Log _ _ => true | _ => false end.

(** ** A publication racing a call

    The background thread and the caller of [get_price] share the object and
    take no lock, so a thread may be suspended between any two statements.
    The statements that matter are the assignments of a publication
    ([_fetch_price], [_process_ticker], the loop of [BiboxPriceFeed]) and the
    two reads of [get_price]. *)

Module Race.

(** The feeds a background thread publishes into. *)
Definition published_into (feed : PriceFeed) : bool :=
  match feed with
  | SetzerFeed _ | GdaxFeed _ | BiboxFeed _ => true
  | _ => false
  end.

(** The statements of a publication, in program order. *)
Inductive statement :=
| StorePrice (p : Wad.t)        (* [self._price = ...] *)
| ResetRetries                  (* [self._retries = 0], Setzer only *)
| StoreTimestamp (t : Z)        (* [self._timestamp = time.time()] *)
| ClearExpired.                 (* [if self._expired: ... = False] *)

Definition publication (t : Z) (p : Wad.t) : list statement :=
  [StorePrice p; ResetRetries; StoreTimestamp t; ClearExpired].

Definition execute (st : statement) (feed : PriceFeed) : PriceFeed :=
  match feed with
  | SetzerFeed f =>
      let '(SetzerPriceFeed.Build source expiry price retries timestamp
                                  expired) := f in
      SetzerFeed
        match st with
        | StorePrice p =>
            SetzerPriceFeed.Build source expiry (Some p) retries timestamp
                                  expired
        | ResetRetries =>
            SetzerPriceFeed.Build source expiry price 0 timestamp expired
        | StoreTimestamp t =>
            SetzerPriceFeed.Build source expiry price retries t expired
        | ClearExpired =>
            SetzerPriceFeed.Build source expiry price retries timestamp false
        end
  | GdaxFeed f =>
      let '(GdaxPriceFeed.Build ws_url product_id expiry price timestamp
                                expired) := f in
      GdaxFeed
        match st with
        | StorePrice p =>
            GdaxPriceFeed.Build ws_url product_id expiry (Some p) timestamp
                                expired
        | ResetRetries => f
        | StoreTimestamp t =>
            GdaxPriceFeed.Build ws_url product_id expiry price t expired
        | ClearExpired =>
            GdaxPriceFeed.Build ws_url product_id expiry price timestamp false
        end
  | BiboxFeed f =>
      let '(BiboxPriceFeed.Build api pair_ expiry price timestamp expired) :=
        f in
      BiboxFeed
        match st with
        | StorePrice p =>
            BiboxPriceFeed.Build api pair_ expiry (Some p) timestamp expired
        | ResetRetries => f
        | StoreTimestamp t =>
            BiboxPriceFeed.Build api pair_ expiry price t expired
        | ClearExpired =>
            BiboxPriceFeed.Build api pair_ expiry price timestamp false
        end
  | _ => feed
  end.

Definition execute_all (sts : list statement) (feed : PriceFeed) : PriceFeed :=
  fold_left (fun feed st => execute st feed) sts feed.

(** Where a call of [get_price] stands. *)
Inductive caller :=
| AtTest                        (* about to read the timestamp and compare *)
| AtReturn (seen : Z)           (* found fresh against [seen]; about to
                                   read the price *)
| Finished (seen : Z) (result : option Wad.t).

Definition advance (now_ : Z) (c : caller) (feed : PriceFeed)
  : caller * PriceFeed :=
  match c with
  | AtTest =>
      let seen := timestamp_of feed in
      if now_ - seen >? expiry_of feed
      then (Finished seen None,
            if negb (expired_of feed) then mark_expired feed else feed)
      else (AtReturn seen, feed)
  | AtReturn seen => (Finished seen (price_of feed), feed)
  | Finished _ _ => (c, feed)
  end.

Inductive turn := Background | Caller.

(** One run of the two threads under the schedule [turns]. *)
Fixpoint interleave (now_ : Z) (turns : list turn) (sts : list statement)
  (c : caller) (feed : PriceFeed) : caller * PriceFeed :=
  match turns with
  | [] => (c, feed)
  | Background :: turns' =>
      match sts with
      | [] => interleave now_ turns' [] c feed
      | st :: sts' => interleave now_ turns' sts' c (execute st feed)
      end
  | Caller :: turns' =>
      let '(c, feed) := advance now_ c feed in
      interleave now_ turns' sts c feed
  end.

(** The statements of the publications [pubs], one after the other. *)
Definition publications (pubs : list (Z * Wad.t)) : list statement :=
  flat_map (fun '(t, p) => publication t p) pubs.

(** The readings that exist: the one the feed holds and the published. *)
Definition readings (feed : PriceFeed) (pubs : list (Z * Wad.t))
  : list reading :=
  reading_of feed :: map (fun '(t, p) => (Some p, t)) pubs.

(** What a statement does to the reading of the feed. *)
Definition write (r : reading) (st : statement) : reading :=
  match st with
  | StorePrice p => (Some p, snd r)
  | StoreTimestamp t => (fst r, t)
  | ResetRetries | ClearExpired => r
  end.

(** A pair of a timestamp and a price is matched when it is one of the
    readings. *)
Definition matched (rs : list reading) (seen : Z) (result : option Wad.t)
  : Prop :=
  In (result, seen) rs.

Fixpoint caller_turns (turns : list turn) : nat :=
  match turns with
  | [] => O
  | Caller :: turns' => S (caller_turns turns')
  | Background :: turns' => caller_turns turns'
  end.

End Race.

(** ** Relations between feeds *)

(** Two feed objects of one class, with the same expiry and file name. *)
Definition same_source (a b : PriceFeed) : Prop :=
  match a, b with
  | FileFeed f, FileFeed g =>
      FilePriceFeed.filename f = FilePriceFeed.filename g
      /\ FilePriceFeed.expiry f = FilePriceFeed.expiry g
  | SetzerFeed f, SetzerFeed g =>
      SetzerPriceFeed.expiry f = SetzerPriceFeed.expiry g
  | GdaxFeed f, GdaxFeed g => GdaxPriceFeed.expiry f = GdaxPriceFeed.expiry g
  | BiboxFeed f, BiboxFeed g =>
      BiboxPriceFeed.expiry f = BiboxPriceFeed.expiry g
  | _, _ => False
  end.

Definition is_wrapped (feed : PriceFeed) : bool :=
  match feed with ApplyTargetPrice _ _ => true | _ => false end.

(** ** Sample inputs *)

Definition eth_price : Wad.t := 305120000000000000000.

Definition quiet_world (t : Z) : world :=
  {| now := t; disk := fun _ => NoFile; oracle := None; par := None |}.

Definition world_with_file (t : Z) (obs : file_obs) : world :=
  {| now := t; disk := fun _ => obs; oracle := None; par := None |}.

Definition ticker_frame : frame :=
  {| raw := "{type: ticker, price: 305.12}";
     parsed := Some {| msg_type := TypeIs "ticker";
                       msg_price := Some eth_price |} |}.

Definition heartbeat_frame : frame :=
  {| raw := "{type: heartbeat}";
     parsed := Some {| msg_type := TypeIs "heartbeat"; msg_price := None |} |}.

Definition gdax0 : PriceFeed :=
  GdaxFeed (fst (GdaxPriceFeed.__init__ "wss://ws-feed.gdax.com" "ETH-USD" 30)).

Definition setzer0 : PriceFeed :=
  SetzerFeed (fst (SetzerPriceFeed.__init__ "kraken" 30)).

Definition file0 : PriceFeed :=
  FileFeed (FilePriceFeed.__init__ "price.json" 30).

Definition file_with_reading : FilePriceFeed.t :=
  FilePriceFeed.Build "price.json" 30 (Some 150250000000000000000) 1000 false.

Definition hundred : Wad.t := Wad.of_Z 100.

Definition scaled0 : PriceFeed :=
  ApplyTargetPrice (FixedFeed (FixedPriceFeed.Build hundred))
                   {| vox_address := "0x9b0f" |}.

Definition world_with_par (ray : option Z) : world :=
  {| now := 0; disk := fun _ => NoFile; oracle := None; par := ray |}.

Definition setzer_fresh : PriceFeed :=
  SetzerFeed (SetzerPriceFeed.Build "kraken" 30 (Some 300) 0 1000 false).

(** ** Events that publish nothing *)

(** A turn of a polling loop that failed, a frame that is neither a ticker
    nor a heartbeat, and the opening, closing and failing of the socket. *)
Definition quiet_event (e : event) : bool :=
  match e with
  | Call _ => false
  | Fetched _ answer =>
      match answer with Some _ => false | None => true end
  | Message _ m =>
      match classify m with
      | Ticker _ | Heartbeat => false
      | Subscriptions | Unrecognized | Malformed => true
      end
  | Opened | Closed | Failed => true
  end.

(** The feed with the failure counter of [SetzerPriceFeed] put back to
    zero. *)
Fixpoint forget_retries (feed : PriceFeed) : PriceFeed :=
  match feed with
  | SetzerFeed f =>
      SetzerFeed (SetzerPriceFeed.Build
                    (SetzerPriceFeed.source f) (SetzerPriceFeed.expiry f)
                    (SetzerPriceFeed._price f) 0
                    (SetzerPriceFeed._timestamp f)
                    (SetzerPriceFeed._expired f))
  | ApplyTargetPrice price_feed vox =>
      ApplyTargetPrice (forget_retries price_feed) vox
  | _ => feed
  end.

(** The price and the instant an event publishes into a feed of the class
    of [feed], when it publishes a price. *)
Definition published_by (feed : PriceFeed) (e : event) : option (Wad.t * Z) :=
  match feed, e with
  | SetzerFeed _, Fetched t (Some p) => Some (p, t)
  | BiboxFeed _, Fetched t (Some p) => Some (p, t)
  | GdaxFeed _, Message t m =>
      match classify m with
      | Ticker p => Some (p, t)
      | _ => None
      end
  | _, _ => None
  end.


Definition is_became_available (e : effect) : bool :=
  match e with Log _ (BecameAvailable _) => true | _ => false end.

(** How many of the effects [es] satisfy [f]. *)
Definition count (f : effect -> bool) (es : list effect) : nat :=
  List.length (filter f es).



(** The events that put no price into a feed of the class of [feed]:
    everything but a poll that succeeds, a ticker, and a call that finds
    the file readable. *)
Definition publishes_no_price (feed : PriceFeed) (e : event) : bool :=
  match published_by feed e with
  | Some _ => false
  | None =>
      match e with
      | Call w => negb (finds_a_price w feed)
      | _ => true
      end
  end.

(** * Properties *)

(** ** Evaluating the models on small inputs *)

Example plain_decimal_42_5 :
  plain_decimal "42.5" = Some 42500000000000000000.
Proof. reflexivity. Qed.

Example plain_decimal_rejects : plain_decimal "4x" = None.
Proof. reflexivity. Qed.

Example streamed_ticker_then_call :
  fst (fst (get_price (quiet_world 1010)
                      (fst (run [Message 1000 ticker_frame] gdax0))))
  = Returned (Some eth_price).
Proof. reflexivity. Qed.

Example streamed_heartbeats_keep_fresh :
  fst (fst (get_price (quiet_world 1050)
                      (fst (run [Message 1000 ticker_frame;
                                 Message 1025 heartbeat_frame] gdax0))))
  = Returned (Some eth_price).
Proof. reflexivity. Qed.

Example streamed_silence_expires :
  fst (fst (get_price (quiet_world 1056)
                      (fst (run [Message 1000 ticker_frame;
                                 Message 1025 heartbeat_frame] gdax0))))
  = Returned None.
Proof. reflexivity. Qed.

Example file_written_then_deleted :
  let w1 := world_with_file 1010 (Readable 150250000000000000000 (Some 1000)) in
  let '(r1, feed, _) := get_price w1 file0 in
  let '(r2, _, _) := get_price (quiet_world 1011) feed in
  r1 = Returned (Some 150250000000000000000) /\ r2 = Returned None.
Proof. split; reflexivity. Qed.

(** ** Events keep the class, the expiry and the file name of a feed *)

Lemma same_source_refl feed : has_expiry feed = true -> same_source feed feed.
Proof. destruct feed; simpl; intros; try discriminate; auto. Qed.

Lemma same_source_trans a b c :
  same_source a b -> same_source b c -> same_source a c.
Proof.
  destruct a, b, c; simpl; try tauto; intuition congruence.
Qed.

Lemma same_source_expiry a b : same_source a b -> expiry_of a = expiry_of b.
Proof. destruct a, b; simpl; tauto. Qed.

Lemma same_source_has_expiry a b : same_source a b -> has_expiry b = true.
Proof. destruct a, b; simpl; tauto. Qed.

Lemma same_source_publish a b r e :
  same_source a b -> publish a r e = publish b r e.
Proof.
  destruct a, b; simpl; try tauto; intros H; try reflexivity.
  destruct H as [-> _]. reflexivity.
Qed.

Lemma read_price_same obs f :
  let f' := fst (FilePriceFeed._read_price obs f) in
  FilePriceFeed.filename f' = FilePriceFeed.filename f
  /\ FilePriceFeed.expiry f' = FilePriceFeed.expiry f
  /\ FilePriceFeed._expired f' = FilePriceFeed._expired f.
Proof. destruct obs as [| | p [m|]]; simpl; auto. Qed.

Lemma handle_same_source e feed :
  has_expiry feed = true -> same_source feed (fst (handle e feed)).
Proof.
  destruct feed as [f|f|pf vox|f|f|f|f]; simpl; try discriminate; intros _.
  - (* file *)
    destruct e; simpl; auto.
    unfold FilePriceFeed.get_price.
    destruct (read_price_same (disk w (FilePriceFeed.filename f)) f)
      as (Hn & He & _).
    destruct (FilePriceFeed._read_price _ f) as [f' io]; simpl in *.
    destruct (_ >? _), (FilePriceFeed._expired f'); simpl; auto.
  - (* setzer *)
    destruct e; simpl; auto.
    + unfold SetzerPriceFeed.get_price.
      destruct (_ >? _), (SetzerPriceFeed._expired f); simpl; auto.
    + destruct answer; simpl; auto.
  - (* gdax *)
    destruct e; simpl; auto.
    + unfold GdaxPriceFeed.get_price.
      destruct (_ >? _), (GdaxPriceFeed._expired f); simpl; auto.
    + unfold GdaxPriceFeed._on_message, GdaxPriceFeed._process_ticker.
      destruct (parsed message) as [b|]; simpl; auto.
      destruct (msg_type b) as [|ty|]; simpl; auto.
      destruct (String.eqb ty "subscriptions"); simpl; auto.
      destruct (String.eqb ty "ticker"); simpl.
      * destruct (msg_price b); simpl; auto.
      * destruct (String.eqb ty "heartbeat"); simpl; auto.
  - (* bibox *)
    destruct e; simpl; auto.
    + unfold BiboxPriceFeed.get_price.
      destruct (_ >? _), (BiboxPriceFeed._expired f); simpl; auto.
    + destruct answer; simpl; auto.
Qed.

(** ** The fields hold what the history published *)

Lemma on_message_classified t m f :
  let f' := fst (GdaxPriceFeed._on_message t m f) in
  (GdaxPriceFeed._last_price f', GdaxPriceFeed._last_timestamp f')
  = match classify m with
    | Ticker p => (Some p, t)
    | Heartbeat => (GdaxPriceFeed._last_price f, t)
    | _ => (GdaxPriceFeed._last_price f, GdaxPriceFeed._last_timestamp f)
    end.
Proof.
  unfold GdaxPriceFeed._on_message, GdaxPriceFeed._process_ticker, classify.
  destruct (parsed m) as [b|]; simpl; auto.
  destruct (msg_type b) as [|ty|]; simpl; auto.
  destruct (String.eqb_spec ty "subscriptions") as [->|_]; simpl; auto.
  destruct (String.eqb_spec ty "ticker") as [->|_]; simpl.
  - destruct (msg_price b); simpl; auto.
  - destruct (String.eqb_spec ty "heartbeat") as [->|_]; simpl; auto.
Qed.

Lemma handle_reading e feed :
  has_expiry feed = true ->
  reading_of (fst (handle e feed)) = publish feed (reading_of feed) e.
Proof.
  destruct feed as [f|f|pf vox|f|f|f|f]; simpl; try discriminate; intros _.
  - destruct e; simpl; auto.
    unfold FilePriceFeed.get_price, reading_of.
    destruct (disk w (FilePriceFeed.filename f)) as [| |p [m|]]; simpl;
      destruct (_ >? _); simpl;
      destruct (FilePriceFeed._expired f); reflexivity.
  - destruct e; simpl; auto.
    + unfold SetzerPriceFeed.get_price.
      destruct (_ >? _), (SetzerPriceFeed._expired f); reflexivity.
    + destruct answer; reflexivity.
  - destruct e; simpl; auto.
    + unfold GdaxPriceFeed.get_price.
      destruct (_ >? _), (GdaxPriceFeed._expired f); reflexivity.
    + pose proof (on_message_classified at_ message f) as H. simpl in H.
      destruct (GdaxPriceFeed._on_message at_ message f) as [f' es].
      simpl in *. unfold reading_of; simpl. rewrite H.
      destruct (classify message); reflexivity.
  - destruct e; simpl; auto.
    + unfold BiboxPriceFeed.get_price.
      destruct (_ >? _), (BiboxPriceFeed._expired f); reflexivity.
    + destruct answer; reflexivity.
Qed.

Lemma run_cons e events feed :
  fst (run (e :: events) feed) = fst (run events (fst (handle e feed))).
Proof.
  simpl. destruct (handle e feed) as [feed' es]. simpl.
  destruct (run events feed'). reflexivity.
Qed.

Lemma run_same_source events :
  forall feed, has_expiry feed = true ->
               same_source feed (fst (run events feed)).
Proof.
  induction events as [|e events IH]; intros feed H.
  - apply same_source_refl, H.
  - rewrite run_cons.
    pose proof (handle_same_source e feed H) as Hs.
    eapply same_source_trans; [exact Hs|].
    apply IH. eapply same_source_has_expiry, Hs.
Qed.

Lemma fold_publish_same events :
  forall a b r, same_source a b ->
                fold_left (publish a) events r = fold_left (publish b) events r.
Proof.
  induction events as [|e events IH]; intros a b r H; simpl; auto.
  rewrite (same_source_publish a b r e H). apply IH, H.
Qed.

Lemma run_reading events :
  forall feed, has_expiry feed = true ->
               reading_of (fst (run events feed)) = last_published feed events.
Proof.
  unfold last_published.
  induction events as [|e events IH]; intros feed H; simpl fold_left.
  - reflexivity.
  - rewrite run_cons.
    pose proof (handle_same_source e feed H) as Hs.
    rewrite IH by (eapply same_source_has_expiry, Hs).
    rewrite handle_reading by exact H.
    symmetry. apply fold_publish_same, Hs.
Qed.

(** The answer of one call, from the fields the call finds. *)
Lemma get_price_answer w feed :
  has_expiry feed = true ->
  fst (fst (get_price w feed))
  = Returned (unless_expired (now w) (expiry_of feed)
                             (publish feed (reading_of feed) (Call w))).
Proof.
  unfold unless_expired.
  destruct feed as [f|f|pf vox|f|f|f|f]; simpl; try discriminate; intros _.
  - unfold FilePriceFeed.get_price.
    destruct (disk w (FilePriceFeed.filename f)) as [| |p [m|]]; simpl;
      destruct (_ >? _); simpl;
      destruct (FilePriceFeed._expired f); reflexivity.
  - unfold SetzerPriceFeed.get_price.
    destruct (_ >? _), (SetzerPriceFeed._expired f); reflexivity.
  - unfold GdaxPriceFeed.get_price.
    destruct (_ >? _), (GdaxPriceFeed._expired f); reflexivity.
  - unfold BiboxPriceFeed.get_price.
    destruct (_ >? _), (BiboxPriceFeed._expired f); reflexivity.
Qed.

(** C1.  Whatever a file-backed, subprocess-backed, websocket-backed or
    exchange-backed feed has been through, [get_price()] called at [now]
    returns [None] when [now] minus the instant of the last published
    reading exceeds the expiry, and the price of that reading otherwise. *)
Theorem get_price_follows_expiry_rule feed events w :
  has_expiry feed = true ->
  fst (fst (get_price w (fst (run events feed))))
  = Returned (unless_expired (now w) (expiry_of feed)
                             (last_published feed (events ++ [Call w]))).
Proof.
  intros H.
  pose proof (run_same_source events feed H) as Hs.
  rewrite get_price_answer by (eapply same_source_has_expiry, Hs).
  rewrite <- (same_source_expiry _ _ Hs).
  rewrite <- (same_source_publish _ _ _ _ Hs).
  rewrite run_reading by exact H.
  unfold last_published. rewrite fold_left_app. reflexivity.
Qed.

Lemma get_price_follows_expiry_rule_witness :
  let events := [Message 1000 ticker_frame; Message 1025 heartbeat_frame] in
  let w := quiet_world 1050 in
  has_expiry gdax0 = true
  /\ fst (fst (get_price w (fst (run events gdax0))))
     = Returned (unless_expired (now w) (expiry_of gdax0)
                                (last_published gdax0 (events ++ [Call w]))).
Proof.
  split; [reflexivity|].
  apply get_price_follows_expiry_rule. reflexivity.
Defined.

(** The file-backed feed reads its file inside [get_price()]: with the
    timestamp still zero and the price still unset, a call that finds the
    file readable returns the price it has just read.  The claim that every
    feed with an expiry answers [None] in that state fails. *)
Lemma unpublished_file_feed_returns_a_price :
  ~ (forall feed w,
        has_expiry feed = true ->
        price_of feed = None ->
        timestamp_of feed = 0 ->
        fst (fst (get_price w feed)) = Returned None).
Proof.
  intros H.
  specialize (H file0
                (world_with_file 1010
                   (Readable 150250000000000000000 (Some 1000)))
                eq_refl eq_refl eq_refl).
  discriminate H.
Qed.

(** C2, amended.  A feed with an expiry whose timestamp is still zero and
    whose price is still unset answers [None] to [get_price()], whatever the
    expiry and the clock, provided the call does not itself publish a
    reading: the file-backed feed reads its file inside the call, and the
    statement holds for it when the call does not find the file readable. *)
Theorem never_published_is_absent feed w :
  has_expiry feed = true ->
  price_of feed = None ->
  timestamp_of feed = 0 ->
  finds_a_price w feed = false ->
  fst (fst (get_price w feed)) = Returned None.
Proof.
  intros H Hp Ht Hf.
  rewrite get_price_answer by exact H.
  assert (publish feed (reading_of feed) (Call w) = unset) as ->.
  { unfold reading_of. rewrite Hp, Ht.
    destruct feed as [f|f|pf vox|f|f|f|f]; simpl in *; try discriminate;
      try reflexivity.
    destruct (disk w (FilePriceFeed.filename f)); try discriminate;
      reflexivity. }
  unfold unless_expired, unset; simpl. destruct (_ >? _); reflexivity.
Qed.

Lemma never_published_is_absent_witness :
  let w := world_with_file 7 Unreadable in
  has_expiry file0 = true
  /\ price_of file0 = None
  /\ timestamp_of file0 = 0
  /\ finds_a_price w file0 = false
  /\ fst (fst (get_price w file0)) = Returned None.
Proof.
  split; [reflexivity|]. split; [reflexivity|].
  split; [reflexivity|]. split; [reflexivity|].
  apply never_published_is_absent; reflexivity.
Defined.

(** ** What a call touches *)

(** The file-backed feed opens its file inside [get_price()]: the claim that
    only the on-chain feed does I/O in the caller fails. *)
Lemma file_feed_reads_in_the_caller :
  ~ (forall feed w,
        is_on_chain feed = false ->
        forallb (fun e => negb (is_io e)) (snd (get_price w feed)) = true).
Proof.
  intros H. specialize (H file0 (quiet_world 5) eq_refl). discriminate H.
Qed.

(** C3, amended.  [get_price()] of the fixed, subprocess-backed,
    websocket-backed and exchange-backed feeds does no network or disk I/O,
    emits nothing but the "has expired" record and changes nothing but the
    expired flag, which it sets when it emits that record.  The file-backed
    feed looks its file up in the caller on every call. *)
Theorem get_price_from_memory_is_quiet feed w f :
  answers_from_memory feed = true ->
  (forallb (fun e => negb (is_io e)) (snd (get_price w feed)) = true
   /\ forallb is_expiry_record (snd (get_price w feed)) = true
   /\ (snd (fst (get_price w feed)) = feed
         /\ snd (get_price w feed) = []
       \/ snd (fst (get_price w feed)) = mark_expired feed
          /\ expired_of feed = false
          /\ transitions (snd (get_price w feed)) = [Expired]))
  /\ In (FileIO IsFile (FilePriceFeed.filename f))
        (snd (get_price w (FileFeed f))).
Proof.
  intros H. split.
  - destruct feed as [g|g|pf vox|g|g|g|g]; simpl in *; try discriminate.
    + auto.
    + unfold SetzerPriceFeed.get_price.
      destruct (_ >? _); [destruct (SetzerPriceFeed._expired g) eqn:E|];
        simpl; auto 6.
    + unfold GdaxPriceFeed.get_price.
      destruct (_ >? _); [destruct (GdaxPriceFeed._expired g) eqn:E|];
        simpl; auto 6.
    + unfold BiboxPriceFeed.get_price.
      destruct (_ >? _); [destruct (BiboxPriceFeed._expired g) eqn:E|];
        simpl; auto 6.
  - simpl. unfold FilePriceFeed.get_price.
    destruct (disk w (FilePriceFeed.filename f)) as [| |p [m|]]; simpl;
      destruct (_ >? _); simpl;
      destruct (FilePriceFeed._expired f); simpl; auto.
Qed.

Lemma get_price_from_memory_is_quiet_witness :
  let feed := fst (run [Fetched 1000 (Some eth_price)] setzer0) in
  let w := quiet_world 2000 in
  answers_from_memory feed = true
  /\ (forallb (fun e => negb (is_io e)) (snd (get_price w feed)) = true
      /\ forallb is_expiry_record (snd (get_price w feed)) = true
      /\ (snd (fst (get_price w feed)) = feed
            /\ snd (get_price w feed) = []
          \/ snd (fst (get_price w feed)) = mark_expired feed
             /\ expired_of feed = false
             /\ transitions (snd (get_price w feed)) = [Expired]))
  /\ In (FileIO IsFile "price.json")
        (snd (get_price w file0)).
Proof.
  split; [reflexivity|].
  apply (get_price_from_memory_is_quiet _ _ (FilePriceFeed.__init__ "price.json" 30)).
  reflexivity.
Defined.

(** ** The file-backed feed *)

(** A read that fails keeps the reading it found: the claim that it leaves
    the reading unset fails on a feed that holds one. *)
Lemma failed_read_keeps_the_reading :
  let f := fst (FilePriceFeed._read_price Unreadable file_with_reading) in
  (FilePriceFeed._price f, FilePriceFeed._timestamp f) <> unset
  /\ FilePriceFeed.get_price 1010 Unreadable file_with_reading
     = (Some 150250000000000000000, file_with_reading,
        [FileIO IsFile "price.json"; FileIO OpenAndLoad "price.json";
         Log Debug (FailedToRead "price.json")]).
Proof. split; [discriminate | reflexivity]. Qed.

(** C4, amended.  For the file-backed feed: a read that finds no file
    unsets the reading (no price, zero timestamp); a read that fails leaves
    the fields as they were, so an unset reading stays unset and a held one
    stays held; a read that succeeds stores the price with the file's
    modification time, not the clock; and a call that reads a file last
    modified more than the expiry ago answers [None]. *)
Theorem file_read_outcomes (f : FilePriceFeed.t) now_ p mtime :
  now_ - mtime > FilePriceFeed.expiry f ->
  (let f' := fst (FilePriceFeed._read_price NoFile f) in
   (FilePriceFeed._price f', FilePriceFeed._timestamp f') = unset)
  /\ fst (FilePriceFeed._read_price Unreadable f) = f
  /\ (let f' := fst (FilePriceFeed._read_price (Readable p (Some mtime)) f) in
      (FilePriceFeed._price f', FilePriceFeed._timestamp f') = (Some p, mtime))
  /\ fst (fst (FilePriceFeed.get_price now_ (Readable p (Some mtime)) f)) = None.
Proof.
  intros H. repeat split.
  unfold FilePriceFeed.get_price. simpl.
  destruct (Z.gtb_spec (now_ - mtime) (FilePriceFeed.expiry f)); [|lia].
  destruct (FilePriceFeed._expired f); reflexivity.
Qed.

Lemma file_read_outcomes_witness :
  let f := file_with_reading in
  2000 - 1000 > FilePriceFeed.expiry f
  /\ (let f' := fst (FilePriceFeed._read_price NoFile f) in
      (FilePriceFeed._price f', FilePriceFeed._timestamp f') = unset)
  /\ fst (FilePriceFeed._read_price Unreadable f) = f
  /\ (let f' := fst (FilePriceFeed._read_price (Readable 7 (Some 1000)) f) in
      (FilePriceFeed._price f', FilePriceFeed._timestamp f') = (Some 7, 1000))
  /\ fst (fst (FilePriceFeed.get_price 2000 (Readable 7 (Some 1000)) f)) = None.
Proof.
  split; [reflexivity|].
  apply (file_read_outcomes file_with_reading 2000 7 1000). reflexivity.
Defined.

(** ** The websocket handler *)

Example ticker_is_classified : classify ticker_frame = Ticker eth_price.
Proof. reflexivity. Qed.

Example heartbeat_is_classified : classify heartbeat_frame = Heartbeat.
Proof. reflexivity. Qed.

Example ticker_without_price_is_malformed :
  classify {| raw := "{type: ticker}";
              parsed := Some {| msg_type := TypeIs "ticker";
                                msg_price := None |} |} = Malformed.
Proof. reflexivity. Qed.

(** C5.  [_on_message] goes by the type of the frame.  A ticker stores its
    price and the clock; a heartbeat stores the clock and leaves the price;
    a frame of another type, or one that cannot be read, is logged with a
    warning and changes no field.  The handler always returns, and does
    nothing to the socket: all it emits are log records. *)
Theorem on_message_dispatches t m (f : GdaxPriceFeed.t) :
  let f' := fst (GdaxPriceFeed._on_message t m f) in
  let es := snd (GdaxPriceFeed._on_message t m f) in
  match classify m with
  | Ticker p =>
      GdaxPriceFeed._last_price f' = Some p
      /\ GdaxPriceFeed._last_timestamp f' = t
  | Heartbeat =>
      GdaxPriceFeed._last_price f' = GdaxPriceFeed._last_price f
      /\ GdaxPriceFeed._last_timestamp f' = t
      /\ GdaxPriceFeed._expired f' = GdaxPriceFeed._expired f
      /\ es = []
  | Subscriptions => f' = f /\ es = []
  | Unrecognized => f' = f /\ es = [Log Warning (WsUnknownType (raw m))]
  | Malformed => f' = f /\ es = [Log Warning (WsInvalidMessage (raw m))]
  end
  /\ forallb is_log es = true.
Proof.
  unfold GdaxPriceFeed._on_message, GdaxPriceFeed._process_ticker, classify.
  destruct (parsed m) as [b|]; simpl; auto.
  destruct (msg_type b) as [|ty|]; simpl; auto.
  destruct (String.eqb_spec ty "subscriptions") as [->|_]; simpl; auto.
  destruct (String.eqb_spec ty "ticker") as [->|_]; simpl.
  - destruct (msg_price b); simpl; auto.
    destruct (GdaxPriceFeed._expired f); simpl; auto.
  - destruct (String.eqb_spec ty "heartbeat") as [->|_]; simpl; auto.
Qed.

(** ** The scaling wrapper *)

Example hundred_over_two :
  fst (fst (get_price (world_with_par (Some (2 * 10 ^ 27))) scaled0))
  = Returned (Some (Wad.of_Z 50)).
Proof. reflexivity. Qed.

(** The wrapper has no absent scale: [vox.par()] answers or raises, and when
    it raises so does [get_price()].  The claim that an absent scale gives an
    absent price fails. *)
Lemma failed_scale_read_raises :
  ~ (forall price_feed vox w price,
        fst (fst (get_price w price_feed)) = Returned (Some price) ->
        par w = None ->
        fst (fst (get_price w (ApplyTargetPrice price_feed vox)))
        = Returned None).
Proof.
  intros H.
  specialize (H (FixedFeed (FixedPriceFeed.Build hundred))
                {| vox_address := "0x9b0f" |} (world_with_par None) hundred
                eq_refl eq_refl).
  discriminate H.
Qed.

(** C6, amended.  [ApplyTargetPrice.get_price()] returns [None] whenever the
    base feed returns [None], and then does not read the scale; otherwise it
    reads [vox.par()] and returns the base price divided by it.  A scale
    that cannot be read, or is zero, raises. *)
Theorem apply_target_price_divides price_feed vox w :
  let base := get_price w price_feed in
  let scaled := get_price w (ApplyTargetPrice price_feed vox) in
  match fst (fst base) with
  | Returned None =>
      fst (fst scaled) = Returned None /\ snd scaled = snd base
  | Returned (Some price) =>
      snd scaled = snd base ++ [ChainCall VoxPar]
      /\ match par w with
         | Some ray =>
             if Wad.of_ray ray =? 0 then fst (fst scaled) = Raised
             else fst (fst scaled)
                  = Returned (Some (Z.quot (price * 10 ^ 18) (Wad.of_ray ray)))
         | None => fst (fst scaled) = Raised
         end
  | Raised => fst (fst scaled) = Raised /\ snd scaled = snd base
  end.
Proof.
  simpl. destruct (get_price w price_feed) as [[r feed'] es]. simpl.
  destruct r as [[price|]|]; simpl; auto.
  split; [reflexivity|].
  destruct (par w) as [ray|]; [|reflexivity].
  unfold Wad.div. destruct (Wad.of_ray ray =? 0); reflexivity.
Qed.

(** ** The factory *)

(** C7.  [create_price_feed] hands back the feed it selected, never an
    [ApplyTargetPrice] around it: the result is the same with a [vox] as
    without one. *)
Theorem factory_never_wraps from_number arg expiry tub vox :
  match fst (create_price_feed from_number arg expiry tub vox) with
  | inr feed => is_wrapped feed = false
  | inl _ => True
  end
  /\ create_price_feed from_number arg expiry tub vox
     = create_price_feed from_number arg expiry tub None.
Proof.
  split; [|reflexivity].
  unfold create_price_feed.
  destruct arg as [arg|]; [|destruct tub; simpl; auto].
  destruct (String.eqb _ _); simpl; auto.
  destruct (startswith arg "fixed:"); simpl.
  - destruct (from_number _); simpl; auto.
  - destruct (startswith arg "file:"); simpl; auto.
Qed.

Example factory_with_vox :
  create_price_feed plain_decimal (Some "fixed:42.5") 30 None
                    (Some {| vox_address := "0x9b0f" |})
  = (inr (FixedFeed (FixedPriceFeed.Build 42500000000000000000)),
     [Log Info (UsingFixedPrice 42500000000000000000)]).
Proof. reflexivity. Qed.





(** ** Staleness records *)

Lemma transitions_app es es' :
  transitions (es ++ es') = transitions es ++ transitions es'.
Proof.
  induction es as [|e es IH]; simpl; [reflexivity|].
  destruct (transition_of e); simpl; rewrite IH; reflexivity.
Qed.

Lemma flip_same b : flip b b = [].
Proof. destruct b; reflexivity. Qed.

Lemma alternates_flip before after ts :
  alternates before (flip before after ++ ts) = alternates after ts.
Proof. destruct before, after; reflexivity. Qed.

(** A call logs a staleness record exactly when it moves the flag. *)
Lemma get_price_flip w feed :
  transitions (snd (get_price w feed))
  = flip (expired_of feed) (expired_of (snd (fst (get_price w feed)))).
Proof.
  induction feed as [f|f|pf IH vox|f|f|f|f]; simpl.
  - reflexivity.
  - destruct (oracle w); reflexivity.
  - destruct (get_price w pf) as [[r pf'] es]. simpl in *.
    destruct r as [[price|]|]; simpl; auto.
    rewrite transitions_app, IH. simpl. apply app_nil_r.
  - unfold FilePriceFeed.get_price.
    pose proof (read_price_same (disk w (FilePriceFeed.filename f)) f)
      as (_ & _ & Hx).
    assert (transitions
              (snd (FilePriceFeed._read_price
                      (disk w (FilePriceFeed.filename f)) f)) = []) as Hio.
    { destruct (disk w (FilePriceFeed.filename f)) as [| |p [m|]]; simpl;
        try reflexivity;
        destruct (FilePriceFeed.price_changed p f); reflexivity. }
    destruct (FilePriceFeed._read_price _ f) as [f' io]. simpl in *.
    rewrite <- Hx.
    destruct (_ >? _); destruct (FilePriceFeed._expired f') eqn:E; simpl;
      rewrite ?transitions_app, ?Hio, ?E; reflexivity.
  - unfold SetzerPriceFeed.get_price.
    destruct (_ >? _); destruct (SetzerPriceFeed._expired f) eqn:E; simpl;
      rewrite ?E; reflexivity.
  - unfold GdaxPriceFeed.get_price.
    destruct (_ >? _); destruct (GdaxPriceFeed._expired f) eqn:E; simpl;
      rewrite ?E; reflexivity.
  - unfold BiboxPriceFeed.get_price.
    destruct (_ >? _); destruct (BiboxPriceFeed._expired f) eqn:E; simpl;
      rewrite ?E; reflexivity.
Qed.

Lemma handle_call w feed :
  handle (Call w) feed = (snd (fst (get_price w feed)), snd (get_price w feed)).
Proof.
  destruct feed; cbn [handle]; destruct (get_price w _) as [[r g] es];
    reflexivity.
Qed.

(** So does every other touch of the object. *)
Lemma handle_flip e feed :
  transitions (snd (handle e feed))
  = flip (expired_of feed) (expired_of (fst (handle e feed))).
Proof.
  assert (forall w feed,
             transitions (snd (handle (Call w) feed))
             = flip (expired_of feed) (expired_of (fst (handle (Call w) feed))))
    as Hcall.
  { intros w g. pose proof (get_price_flip w g) as H.
    rewrite handle_call.
    destruct (get_price w g) as [[r g'] es]. exact H. }
  induction feed as [f|f|pf IH vox|f|f|f|f].
  - destruct e; try apply Hcall; reflexivity.
  - destruct e; try apply Hcall; reflexivity.
  - destruct e; try apply Hcall; simpl;
      destruct (handle _ pf) as [pf' es]; exact IH.
  - destruct e; try apply Hcall; simpl; symmetry; apply flip_same.
  - destruct e; try apply Hcall; simpl; try (symmetry; apply flip_same).
    destruct answer as [p|]; simpl.
    + rewrite transitions_app. simpl.
      destruct (SetzerPriceFeed._expired f); reflexivity.
    + rewrite transitions_app. simpl.
      destruct (_ >? _); simpl; symmetry; apply flip_same.
  - destruct e; try apply Hcall; simpl; try (symmetry; apply flip_same).
    unfold GdaxPriceFeed._on_message, GdaxPriceFeed._process_ticker.
    destruct (parsed message) as [b|]; simpl; [|symmetry; apply flip_same].
    destruct (msg_type b) as [|ty|]; simpl; try (symmetry; apply flip_same).
    destruct (String.eqb ty "subscriptions"); simpl;
      [symmetry; apply flip_same|].
    destruct (String.eqb ty "ticker"); simpl.
    + destruct (msg_price b); simpl; [|symmetry; apply flip_same].
      destruct (GdaxPriceFeed._expired f); reflexivity.
    + destruct (String.eqb ty "heartbeat"); simpl; symmetry; apply flip_same.
  - destruct e; try apply Hcall; simpl; try (symmetry; apply flip_same).
    destruct answer as [p|]; simpl; [|symmetry; apply flip_same].
    destruct (BiboxPriceFeed._expired f); reflexivity.
Qed.

Lemma run_alternates events :
  forall feed,
    alternates (expired_of feed) (transitions (snd (run events feed))) = true.
Proof.
  induction events as [|e events IH]; intros feed; [reflexivity|].
  simpl. pose proof (handle_flip e feed) as H.
  destruct (handle e feed) as [feed' es]. simpl in H.
  specialize (IH feed'). destruct (run events feed') as [feed'' es'].
  simpl in *. rewrite transitions_app, H, alternates_flip. exact IH.
Qed.

(** C9.  Along any history of a feed, a "became available" or "has expired"
    record is logged by a step exactly when that step moves the expired
    flag, one record per move; so the records take turns, and none is
    repeated while the flag stands. *)
Theorem staleness_records_follow_the_flag feed events e :
  let reached := fst (run events feed) in
  transitions (snd (handle e reached))
  = flip (expired_of reached) (expired_of (fst (handle e reached)))
  /\ alternates (expired_of feed) (transitions (snd (run events feed))) = true.
Proof.
  split; [apply handle_flip | apply run_alternates].
Qed.

Example records_of_a_history :
  transitions
    (snd (run [Fetched 1000 (Some eth_price); Fetched 1005 (Some eth_price);
               Call (quiet_world 1100); Call (quiet_world 1101);
               Fetched 1105 (Some eth_price); Call (quiet_world 1106)]
              setzer0))
  = [Available; Expired; Available].
Proof. reflexivity. Qed.

(** ** A publication racing a call *)

(** Run back to back, the statements of a publication are the method. *)
Lemma publication_is_the_method t p m feed :
  classify m = Ticker p ->
  Race.execute_all (Race.publication t p) feed
  = match feed with
    | SetzerFeed _ | BiboxFeed _ => fst (handle (Fetched t (Some p)) feed)
    | GdaxFeed _ => fst (handle (Message t m) feed)
    | _ => feed
    end.
Proof.
  intros Hm.
  destruct feed as [f|f|pf vox|f|f|f|f]; try reflexivity.
  - destruct f; reflexivity.
  - assert (GdaxPriceFeed._on_message t m f
            = (GdaxPriceFeed.Build (GdaxPriceFeed.ws_url f)
                 (GdaxPriceFeed.product_id f) (GdaxPriceFeed.expiry f)
                 (Some p) t false,
               snd (GdaxPriceFeed._on_message t m f))) as E.
    { revert Hm. unfold classify, GdaxPriceFeed._on_message,
        GdaxPriceFeed._process_ticker.
      destruct (parsed m) as [b|]; [|discriminate].
      destruct (msg_type b) as [|ty|]; try discriminate.
      destruct (String.eqb_spec ty "ticker") as [->|_].
      - simpl. destruct (msg_price b); [|discriminate].
        intros [= ->]. reflexivity.
      - destruct (String.eqb ty "heartbeat"); [discriminate|].
        destruct (String.eqb ty "subscriptions"); discriminate. }
    simpl. rewrite E. destruct f; reflexivity.
  - destruct f; reflexivity.
Qed.

(** Run back to back, the two reads of the caller are [get_price()]. *)
Lemma two_reads_are_get_price w feed :
  Race.published_into feed = true ->
  Race.interleave (now w) [Race.Caller; Race.Caller] [] Race.AtTest feed
  = (Race.Finished (timestamp_of feed)
       (unless_expired (now w) (expiry_of feed) (reading_of feed)),
     snd (fst (get_price w feed)))
  /\ fst (fst (get_price w feed))
     = Returned (unless_expired (now w) (expiry_of feed) (reading_of feed)).
Proof.
  unfold unless_expired.
  destruct feed as [f|f|pf vox|f|f|f|f]; try discriminate; intros _; simpl.
  - unfold SetzerPriceFeed.get_price.
    destruct (_ >? _); [destruct (SetzerPriceFeed._expired f)|]; auto.
  - unfold GdaxPriceFeed.get_price.
    destruct (_ >? _); [destruct (GdaxPriceFeed._expired f)|]; auto.
  - unfold BiboxPriceFeed.get_price.
    destruct (_ >? _); [destruct (BiboxPriceFeed._expired f)|]; auto.
Qed.

Lemma execute_reading st feed :
  Race.published_into feed = true ->
  reading_of (Race.execute st feed) = Race.write (reading_of feed) st
  /\ expiry_of (Race.execute st feed) = expiry_of feed
  /\ Race.published_into (Race.execute st feed) = true.
Proof.
  destruct feed as [f|f|pf vox|f|f|f|f]; try discriminate; intros _;
    destruct f, st; repeat split.
Qed.

Lemma mark_expired_published feed :
  Race.published_into feed = true ->
  Race.published_into (mark_expired feed) = true.
Proof. destruct feed; simpl; auto. Qed.

(** Where the two reads of a call fall among the statements of the
    background thread: the timestamp is read after the first [a] of them,
    the price after the first [b], and [a <= b]. *)
Lemma interleave_reads now_ turns :
  forall sts c feed seen result feed',
    Race.published_into feed = true ->
    Race.interleave now_ turns sts c feed = (Race.Finished seen result, feed') ->
    match c with
    | Race.AtTest =>
        exists a b,
          (a <= b)%nat
          /\ seen = snd (fold_left Race.write (firstn a sts) (reading_of feed))
          /\ (result = None /\ now_ - seen > expiry_of feed
              \/ now_ - seen <= expiry_of feed
                 /\ result = fst (fold_left Race.write (firstn b sts)
                                            (reading_of feed)))
    | Race.AtReturn s =>
        seen = s
        /\ exists b,
            result = fst (fold_left Race.write (firstn b sts) (reading_of feed))
    | Race.Finished s r => seen = s /\ result = r
    end.
Proof.
  induction turns as [|[|] turns IH]; intros sts c feed seen result feed' Hp H.
  - (* the schedule is over *)
    simpl in H. inversion H; subst. split; reflexivity.
  - (* the background thread moves *)
    simpl in H. destruct sts as [|st sts].
    + specialize (IH [] c feed seen result feed' Hp H).
      destruct c; auto.
    + destruct (execute_reading st feed Hp) as (Hr & He & Hp').
      specialize (IH sts c (Race.execute st feed) seen result feed' Hp' H).
      rewrite Hr, ?He in IH.
      destruct c.
      * destruct IH as (a & b & Hab & Hs & Hres).
        exists (S a), (S b). simpl. split; [lia|]. auto.
      * destruct IH as (Hs & b & Hres). split; [exact Hs|].
        exists (S b). exact Hres.
      * exact IH.
  - (* the caller moves *)
    simpl in H. destruct c as [|s|s r]; simpl in H.
    + destruct (Z.gtb_spec (now_ - timestamp_of feed) (expiry_of feed)) as [G|G].
      * assert (Race.published_into
                  (if negb (expired_of feed) then mark_expired feed else feed)
                = true) as Hp'
            by (destruct (negb _); auto using mark_expired_published).
        destruct (IH _ _ _ _ _ _ Hp' H) as (-> & ->).
        exists O, O. simpl. split; [lia|]. split; [reflexivity|].
        left. split; [reflexivity | lia].
      * destruct (IH _ _ _ _ _ _ Hp H) as (-> & b & ->).
        exists O, b. simpl. split; [lia|]. split; [reflexivity|].
        right. split; [lia | reflexivity].
    + destruct (IH _ _ _ _ _ _ Hp H) as (-> & ->).
      split; [reflexivity|]. exists O. reflexivity.
    + exact (IH _ _ _ _ _ _ Hp H).
Qed.

(** After any number of statements of a run of publications, the timestamp
    in the fields belongs to a reading no later than the one the price
    belongs to; and a later look finds no earlier reading. *)
Lemma prefix_pairs pubs :
  forall (r : reading) a b,
    (a <= b)%nat ->
    exists i j pi tj,
      (i <= j)%nat
      /\ nth_error (r :: map (fun '(t, p) => (Some p, t)) pubs) i
         = Some (pi, snd (fold_left Race.write
                                    (firstn a (Race.publications pubs)) r))
      /\ nth_error (r :: map (fun '(t, p) => (Some p, t)) pubs) j
         = Some (fst (fold_left Race.write
                                (firstn b (Race.publications pubs)) r), tj).
Proof.
  induction pubs as [|[t p] pubs IH]; intros [p0 t0] a b Hab.
  - exists O, O, p0, t0. simpl. rewrite !firstn_nil. simpl. auto.
  - assert (forall k,
               firstn (S (S (S (S k)))) (Race.publications ((t, p) :: pubs))
               = Race.publication t p ++ firstn k (Race.publications pubs))
      as Hlong by reflexivity.
    assert (forall k, (k < 4)%nat ->
               fold_left Race.write
                 (firstn k (Race.publications ((t, p) :: pubs))) (p0, t0)
               = match k with
                 | O => (p0, t0)
                 | 3%nat => (Some p, t)
                 | _ => (Some p, t0)
                 end) as Hshort.
    { intros [|[|[|[|k]]]] Hk; try reflexivity. lia. }
    destruct (Nat.lt_ge_cases b 4) as [Hb|Hb].
    + (* both looks fall inside the first publication *)
      rewrite (Hshort a) by lia. rewrite (Hshort b) by lia.
      destruct a as [|[|[|[|a]]]]; try lia;
        destruct b as [|[|[|[|b]]]]; try lia; simpl;
        first [ exists O, O, p0, t0; simpl; split; [lia|]; split; reflexivity
              | exists O, 1%nat, p0, t; simpl; split; [lia|]; split; reflexivity
              | exists 1%nat, 1%nat, (Some p), t; simpl; split; [lia|];
                split; reflexivity ].
    + (* the price is read after the first publication is through *)
      destruct b as [|[|[|[|b]]]]; try lia.
      rewrite (Hlong b), fold_left_app.
      change (fold_left Race.write (Race.publication t p) (p0, t0))
        with (Some p, t).
      destruct (Nat.lt_ge_cases a 4) as [Ha|Ha].
      * rewrite (Hshort a) by lia.
        destruct (IH (Some p, t) O b (Nat.le_0_l b))
          as (i & j & pi & tj & _ & _ & Hj).
        destruct a as [|[|[|[|a]]]]; try lia; simpl;
          first [ exists O, (S j), p0, tj; simpl; split; [lia|];
                  split; [reflexivity | exact Hj]
                | exists 1%nat, (S j), (Some p), tj; simpl; split; [lia|];
                  split; [reflexivity | exact Hj] ].
      * destruct a as [|[|[|[|a]]]]; try lia.
        rewrite (Hlong a), fold_left_app.
        change (fold_left Race.write (Race.publication t p) (p0, t0))
          with (Some p, t).
        destruct (IH (Some p, t) a b ltac:(lia))
          as (i & j & pi & tj & Hij & Hi & Hj).
        exists (S i), (S j), pi, tj. simpl. split; [lia|].
        split; assumption.
Qed.

(** A caller that gets its turns gets its answer. *)
Lemma interleave_finishes now_ turns :
  forall sts c feed,
    (match c with
     | Race.AtTest => 2
     | Race.AtReturn _ => 1
     | Race.Finished _ _ => 0
     end <= Race.caller_turns turns)%nat ->
    exists seen result feed',
      Race.interleave now_ turns sts c feed
      = (Race.Finished seen result, feed').
Proof.
  induction turns as [|[|] turns IH]; intros sts c feed H; simpl in *.
  - destruct c; try lia. eauto.
  - destruct sts; apply IH; exact H.
  - destruct c as [|s|s r]; simpl.
    + destruct (_ >? _); apply IH; simpl; lia.
    + apply IH. simpl. lia.
    + apply IH. simpl. lia.
Qed.

(** A call that runs between the two assignments of a publication checks
    the old timestamp and returns the new price: the claim that price and
    timestamp are always seen as a matched pair fails. *)
Lemma call_between_the_assignments :
  ~ (forall now_ turns pubs feed seen result feed',
        Race.published_into feed = true ->
        Race.interleave now_ turns (Race.publications pubs) Race.AtTest feed
        = (Race.Finished seen result, feed') ->
        now_ - seen <= expiry_of feed ->
        Race.matched (Race.readings feed pubs) seen result).
Proof.
  intros H.
  specialize (H 1010
                [Race.Background; Race.Caller; Race.Caller; Race.Background;
                 Race.Background; Race.Background]
                [(1010, 305)] setzer_fresh 1000 (Some 305)
                (fst (handle (Fetched 1010 (Some 305)) setzer_fresh))
                eq_refl eq_refl ltac:(simpl; lia)).
  unfold Race.matched in H. simpl in H.
  destruct H as [H|[H|[]]]; discriminate H.
Qed.

(** C10, amended.  A publication is two assignments, the price and then
    the timestamp, with no lock around them.  However the statements of the
    background thread and the two reads of a [get_price()] call fall
    between one another, the call ends, and the price it returns belongs to
    the reading whose timestamp it checked or to a later one: never a
    timestamp newer than the price. *)
Theorem price_no_older_than_timestamp now_ turns pubs feed :
  Race.published_into feed = true ->
  (2 <= Race.caller_turns turns)%nat ->
  exists seen result feed',
    Race.interleave now_ turns (Race.publications pubs) Race.AtTest feed
    = (Race.Finished seen result, feed')
    /\ exists i j pi tj,
        (i <= j)%nat
        /\ nth_error (Race.readings feed pubs) i = Some (pi, seen)
        /\ (result = None /\ now_ - seen > expiry_of feed
            \/ now_ - seen <= expiry_of feed
               /\ nth_error (Race.readings feed pubs) j = Some (result, tj)).
Proof.
  intros Hp Ht.
  destruct (interleave_finishes now_ turns (Race.publications pubs)
                                Race.AtTest feed Ht)
    as (seen & result & feed' & E).
  exists seen, result, feed'. split; [exact E|].
  destruct (interleave_reads _ _ _ _ _ _ _ _ Hp E)
    as (a & b & Hab & Hs & Hres).
  destruct (prefix_pairs pubs (reading_of feed) a b Hab)
    as (i & j & pi & tj & Hij & Hi & Hj).
  exists i, j, pi, tj. unfold Race.readings.
  split; [exact Hij|]. split; [rewrite Hs; exact Hi|].
  destruct Hres as [[-> G]|[G ->]]; [left | right]; auto.
Qed.

Lemma price_no_older_than_timestamp_witness :
  let turns := [Race.Background; Race.Caller; Race.Caller; Race.Background] in
  Race.published_into setzer_fresh = true
  /\ (2 <= Race.caller_turns turns)%nat
  /\ exists seen result feed',
      Race.interleave 1010 turns (Race.publications [(1010, 305)]) Race.AtTest
                      setzer_fresh
      = (Race.Finished seen result, feed')
      /\ exists i j pi tj,
          (i <= j)%nat
          /\ nth_error (Race.readings setzer_fresh [(1010, 305)]) i
             = Some (pi, seen)
          /\ (result = None /\ 1010 - seen > expiry_of setzer_fresh
              \/ 1010 - seen <= expiry_of setzer_fresh
                 /\ nth_error (Race.readings setzer_fresh [(1010, 305)]) j
                    = Some (result, tj)).
Proof.
  split; [reflexivity|]. split; [simpl; lia|].
  apply price_no_older_than_timestamp; [reflexivity | simpl; lia].
Defined.

(** * Further properties of the feeds *)

(** ** The failure counter of the subprocess-backed feed *)





(** ** Events that publish nothing leave the answer alone *)

Lemma get_price_forget_retries w feed :
  fst (fst (get_price w (forget_retries feed))) = fst (fst (get_price w feed)).
Proof.
  induction feed as [f|f|pf IH vox|f|f|f|f]; try reflexivity.
  - simpl.
    destruct (get_price w (forget_retries pf)) as [[r1 g1] es1].
    destruct (get_price w pf) as [[r2 g2] es2].
    simpl in IH. subst r2. destruct r1 as [[price|]|]; reflexivity.
  - simpl. unfold SetzerPriceFeed.get_price. simpl.
    destruct (_ >? _); [destruct (SetzerPriceFeed._expired f)|]; reflexivity.
Qed.

Lemma expired_of_forget_retries feed :
  expired_of (forget_retries feed) = expired_of feed.
Proof. induction feed; simpl; auto. Qed.

Lemma quiet_event_forgotten e feed :
  quiet_event e = true ->
  forget_retries (fst (handle e feed)) = forget_retries feed.
Proof.
  intros Hq.
  induction feed as [f|f|pf IH vox|f|f|f|f].
  - destruct e; try discriminate; reflexivity.
  - destruct e; try discriminate; reflexivity.
  - destruct e; try discriminate; simpl;
      destruct (handle _ pf) as [pf' es]; simpl in *; rewrite IH; reflexivity.
  - destruct e; try discriminate; reflexivity.
  - destruct e as [w|t [p|]|t m| | |]; try discriminate; reflexivity.
  - destruct e as [w|t [p|]|t m| | |]; try discriminate; try reflexivity.
    pose proof (on_message_classified t m f) as H.
    simpl in Hq, H.
    assert (fst (GdaxPriceFeed._on_message t m f) = f) as E.
    { revert Hq. unfold classify, GdaxPriceFeed._on_message,
        GdaxPriceFeed._process_ticker.
      destruct (parsed m) as [b|]; [|reflexivity].
      destruct (msg_type b) as [|ty|]; try reflexivity.
      destruct (String.eqb_spec ty "ticker") as [->|_].
      - simpl. destruct (msg_price b); [discriminate | reflexivity].
      - destruct (String.eqb_spec ty "heartbeat") as [->|_]; [discriminate|].
        destruct (String.eqb ty "subscriptions"); reflexivity. }
    simpl. destruct (GdaxPriceFeed._on_message t m f) as [f' es].
    simpl in E. subst f'. reflexivity.
  - destruct e as [w|t [p|]|t m| | |]; try discriminate; reflexivity.
Qed.

Lemma run_quiet_forgotten events :
  forall feed,
    forallb quiet_event events = true ->
    forget_retries (fst (run events feed)) = forget_retries feed
    /\ transitions (snd (run events feed)) = [].
Proof.
  induction events as [|e events IH]; intros feed H; [split; reflexivity|].
  simpl in H. apply andb_prop in H. destruct H as [He Hes].
  pose proof (quiet_event_forgotten e feed He) as Hf.
  pose proof (handle_flip e feed) as Hflip.
  rewrite <- (expired_of_forget_retries (fst (handle e feed))), Hf,
    expired_of_forget_retries, flip_same in Hflip.
  rewrite run_cons. simpl.
  destruct (handle e feed) as [feed1 es1]. simpl in *.
  destruct (IH feed1 Hes) as [IH1 IH2].
  destruct (run events feed1) as [feed2 es2]. simpl in *.
  split; [congruence|].
  rewrite transitions_app, Hflip, IH2. reflexivity.
Qed.

(** X2.  Failed turns of a polling loop, frames that are neither tickers nor
    heartbeats, and the opening, closing and failing of the socket change
    nothing a caller can see: [get_price()] answers after them what it would
    have answered before, and none of them logs a staleness record. *)
Theorem quiet_events_keep_the_answer feed events w :
  forallb quiet_event events = true ->
  fst (fst (get_price w (fst (run events feed))))
  = fst (fst (get_price w feed))
  /\ transitions (snd (run events feed)) = [].
Proof.
  intros H. destruct (run_quiet_forgotten events feed H) as [Hf Ht].
  split; [|exact Ht].
  rewrite <- (get_price_forget_retries w (fst (run events feed))), Hf.
  apply get_price_forget_retries.
Qed.

Lemma quiet_events_keep_the_answer_witness :
  let feed := fst (run [Message 1000 ticker_frame] gdax0) in
  let events :=
    [Failed; Closed; Opened;
     Message 1001 {| raw := "[1]"; parsed := None |};
     Fetched 1002 None] in
  let w := quiet_world 1010 in
  forallb quiet_event events = true
  /\ fst (fst (get_price w (fst (run events feed))))
     = fst (fst (get_price w feed))
  /\ transitions (snd (run events feed)) = [].
Proof.
  split; [reflexivity|].
  apply quiet_events_keep_the_answer. reflexivity.
Defined.

(** ** Asking twice *)

(** X3.  A second [get_price()] under the same clock, disk and chain gives
    the answer of the first and logs no staleness record: the "has expired"
    and "became available" of a call are not repeated by the next one. *)
Theorem second_call_repeats_the_answer w feed :
  let first := get_price w feed in
  let second := get_price w (snd (fst first)) in
  fst (fst second) = fst (fst first) /\ transitions (snd second) = [].
Proof.
  induction feed as [f|f|pf IH vox|f|f|f|f]; cbn zeta in *.
  - split; reflexivity.
  - simpl. destruct (oracle w) eqn:O; simpl; rewrite O; split; reflexivity.
  - simpl. destruct (get_price w pf) as [[r1 g1] es1]. simpl in IH.
    destruct r1 as [[price|]|]; simpl;
      destruct (get_price w g1) as [[r2 g2] es2]; simpl in IH;
      destruct IH as [-> Ht]; simpl; rewrite ?transitions_app, Ht;
      split; reflexivity.
  - simpl. unfold FilePriceFeed.get_price.
    destruct (disk w (FilePriceFeed.filename f)) as [| |p [m|]] eqn:D; simpl;
      destruct (_ >? _) eqn:E; simpl;
      destruct (FilePriceFeed._expired f) eqn:X; simpl;
      rewrite ?D; unfold FilePriceFeed.get_price; simpl; rewrite ?E, ?X; simpl;
      (split; [reflexivity|]);
      rewrite ?transitions_app; simpl;
      unfold FilePriceFeed.price_changed; simpl; unfold Wad.eqb;
      rewrite ?Z.eqb_refl; simpl;
      try reflexivity;
      destruct (FilePriceFeed._price f) as [old|]; simpl;
      try destruct (negb _); reflexivity.
  - simpl. unfold SetzerPriceFeed.get_price.
    destruct (_ >? _) eqn:E; [destruct (SetzerPriceFeed._expired f) eqn:X|];
      simpl; unfold SetzerPriceFeed.get_price; simpl; rewrite ?E, ?X;
      split; reflexivity.
  - simpl. unfold GdaxPriceFeed.get_price.
    destruct (_ >? _) eqn:E; [destruct (GdaxPriceFeed._expired f) eqn:X|];
      simpl; unfold GdaxPriceFeed.get_price; simpl; rewrite ?E, ?X;
      split; reflexivity.
  - simpl. unfold BiboxPriceFeed.get_price.
    destruct (_ >? _) eqn:E; [destruct (BiboxPriceFeed._expired f) eqn:X|];
      simpl; unfold BiboxPriceFeed.get_price; simpl; rewrite ?E, ?X;
      split; reflexivity.
Qed.

(** ** Publishing and reading back *)

Lemma published_reading feed e p t :
  published_by feed e = Some (p, t) ->
  has_expiry feed = true /\ publish feed (reading_of feed) e = (Some p, t).
Proof.
  destruct feed as [f|f|pf vox|f|f|f|f]; simpl; try discriminate;
    destruct e as [w|t' [p'|]|t' m| | |]; simpl; try discriminate.
  - intros [= -> ->]. auto.
  - destruct (classify m); try discriminate. intros [= -> ->]. auto.
  - intros [= -> ->]. auto.
Qed.

(** X4.  A price published by a poll or a ticker at [t] is what
    [get_price()] returns from then on, up to and including the instant
    [t + expiry]; one tick later the call returns [None]. *)
Theorem published_price_is_read_back feed e p t w :
  published_by feed e = Some (p, t) ->
  fst (fst (get_price w (fst (handle e feed))))
  = Returned (if now w - t >? expiry_of feed then None else Some p).
Proof.
  intros H. destruct (published_reading feed e p t H) as [He Hp].
  pose proof (handle_same_source e feed He) as Hs.
  rewrite get_price_answer by (eapply same_source_has_expiry, Hs).
  rewrite handle_reading, Hp by exact He.
  rewrite <- (same_source_expiry _ _ Hs).
  assert (publish (fst (handle e feed)) (Some p, t) (Call w) = (Some p, t))
    as ->.
  { rewrite <- (same_source_publish _ _ _ _ Hs).
    destruct feed; simpl in *; try discriminate; reflexivity. }
  reflexivity.
Qed.

Lemma published_price_is_read_back_witness :
  published_by setzer0 (Fetched 1000 (Some eth_price))
  = Some (eth_price, 1000)
  /\ fst (fst (get_price (quiet_world 1030)
                 (fst (handle (Fetched 1000 (Some eth_price)) setzer0))))
     = Returned (if now (quiet_world 1030) - 1000 >? expiry_of setzer0
                 then None else Some eth_price)
  /\ fst (fst (get_price (quiet_world 1031)
                 (fst (handle (Fetched 1000 (Some eth_price)) setzer0))))
     = Returned None.
Proof.
  split; [reflexivity|]. split.
  - apply published_price_is_read_back. reflexivity.
  - rewrite (published_price_is_read_back setzer0 _ eth_price 1000);
      reflexivity.
Defined.

(** ** Heartbeats and the expired flag *)

(** X5.  A heartbeat refreshes the timestamp but leaves the expired flag
    as it is.  So a websocket feed that has been reported expired and then
    gets a heartbeat returns its last price again, with the flag still set
    and no "became available" record; the record comes with the next
    ticker only. *)
Theorem heartbeat_revives_without_record (f : GdaxPriceFeed.t) t m now_ :
  classify m = Heartbeat ->
  GdaxPriceFeed._expired f = true ->
  now_ - t <= GdaxPriceFeed.expiry f ->
  let f' := fst (GdaxPriceFeed._on_message t m f) in
  snd (GdaxPriceFeed._on_message t m f) = []
  /\ GdaxPriceFeed.get_price now_ f' = (GdaxPriceFeed._last_price f, f', [])
  /\ GdaxPriceFeed._expired f' = true.
Proof.
  intros Hm Hx Hn.
  assert (GdaxPriceFeed._on_message t m f
          = (GdaxPriceFeed._process_heartbeat t f, [])) as E.
  { revert Hm. unfold classify, GdaxPriceFeed._on_message.
    destruct (parsed m) as [b|]; [|discriminate].
    destruct (msg_type b) as [|ty|]; try discriminate.
    destruct (String.eqb_spec ty "ticker") as [->|_].
    - destruct (msg_price b); discriminate.
    - destruct (String.eqb_spec ty "heartbeat") as [->|_].
      + reflexivity.
      + destruct (String.eqb ty "subscriptions"); discriminate. }
  rewrite E. simpl. split; [reflexivity|]. split; [|exact Hx].
  unfold GdaxPriceFeed.get_price. simpl.
  destruct (Z.gtb_spec (now_ - t) (GdaxPriceFeed.expiry f)); [lia|].
  reflexivity.
Qed.

Lemma heartbeat_revives_without_record_witness :
  let f := GdaxPriceFeed.Build "wss://ws-feed.gdax.com" "ETH-USD" 30
                               (Some eth_price) 1000 true in
  classify heartbeat_frame = Heartbeat
  /\ GdaxPriceFeed._expired f = true
  /\ 1110 - 1100 <= GdaxPriceFeed.expiry f
  /\ (let f' := fst (GdaxPriceFeed._on_message 1100 heartbeat_frame f) in
      snd (GdaxPriceFeed._on_message 1100 heartbeat_frame f) = []
      /\ GdaxPriceFeed.get_price 1110 f'
         = (GdaxPriceFeed._last_price f, f', [])
      /\ GdaxPriceFeed._expired f' = true).
Proof.
  split; [reflexivity|]. split; [reflexivity|]. split; [simpl; lia|].
  apply heartbeat_revives_without_record;
    [reflexivity | reflexivity | simpl; lia].
Defined.

(** ** Absent stays absent *)

(** X6.  When [get_price()] of a subprocess-backed, websocket-backed or
    exchange-backed feed returns [None], it returns [None] at every later
    instant too, until the background thread publishes: neither the passing
    of time nor the call itself brings a price back. *)
Theorem absent_stays_absent feed w w' :
  answers_from_memory feed = true ->
  now w <= now w' ->
  fst (fst (get_price w feed)) = Returned None ->
  fst (fst (get_price w' (snd (fst (get_price w feed))))) = Returned None.
Proof.
  intros Hm Hn.
  destruct feed as [f|f|pf vox|f|f|f|f]; try discriminate; simpl.
  - unfold SetzerPriceFeed.get_price.
    destruct (Z.gtb_spec (now w - SetzerPriceFeed._timestamp f)
                         (SetzerPriceFeed.expiry f)) as [G|G];
      [destruct (SetzerPriceFeed._expired f)|]; simpl;
      unfold SetzerPriceFeed.get_price; simpl;
      destruct (Z.gtb_spec (now w' - SetzerPriceFeed._timestamp f)
                           (SetzerPriceFeed.expiry f));
      try lia; try destruct (SetzerPriceFeed._expired f); auto.
  - unfold GdaxPriceFeed.get_price.
    destruct (Z.gtb_spec (now w - GdaxPriceFeed._last_timestamp f)
                         (GdaxPriceFeed.expiry f)) as [G|G];
      [destruct (GdaxPriceFeed._expired f)|]; simpl;
      unfold GdaxPriceFeed.get_price; simpl;
      destruct (Z.gtb_spec (now w' - GdaxPriceFeed._last_timestamp f)
                           (GdaxPriceFeed.expiry f));
      try lia; try destruct (GdaxPriceFeed._expired f); auto.
  - unfold BiboxPriceFeed.get_price.
    destruct (Z.gtb_spec (now w - BiboxPriceFeed._last_timestamp f)
                         (BiboxPriceFeed.expiry f)) as [G|G];
      [destruct (BiboxPriceFeed._expired f)|]; simpl;
      unfold BiboxPriceFeed.get_price; simpl;
      destruct (Z.gtb_spec (now w' - BiboxPriceFeed._last_timestamp f)
                           (BiboxPriceFeed.expiry f));
      try lia; try destruct (BiboxPriceFeed._expired f); auto.
Qed.

Lemma absent_stays_absent_witness :
  let feed := fst (run [Fetched 1000 (Some eth_price)] setzer0) in
  let w := quiet_world 1031 in
  let w' := quiet_world 5000 in
  answers_from_memory feed = true
  /\ now w <= now w'
  /\ fst (fst (get_price w feed)) = Returned None
  /\ fst (fst (get_price w' (snd (fst (get_price w feed))))) = Returned None.
Proof.
  split; [reflexivity|]. split; [simpl; lia|]. split; [reflexivity|].
  apply absent_stays_absent; [reflexivity | simpl; lia | reflexivity].
Defined.

(** ** The factory and what it starts *)

(** X7.  [create_price_feed] starts exactly one background thread when it
    returns the subprocess-backed or the websocket-backed feed, and none
    otherwise: not for a fixed, file-backed or on-chain feed, and not when
    it raises. *)
Theorem factory_thread_count from_number arg expiry tub vox :
  count is_thread_start
        (snd (create_price_feed from_number arg expiry tub vox))
  = match fst (create_price_feed from_number arg expiry tub vox) with
    | inr (SetzerFeed _) | inr (GdaxFeed _) => 1%nat
    | _ => 0%nat
    end.
Proof.
  unfold create_price_feed.
  destruct arg as [arg|]; [|destruct tub; reflexivity].
  destruct (String.eqb _ _); [reflexivity|].
  destruct (startswith arg "fixed:").
  - destruct (from_number _); reflexivity.
  - destruct (startswith arg "file:"); reflexivity.
Qed.

Lemma publish_no_price feed r e :
  publishes_no_price feed e = true ->
  fst r = None ->
  fst (publish feed r e) = None.
Proof.
  unfold publishes_no_price.
  destruct feed as [f|f|pf vox|f|f|f|f];
    destruct e as [w|t [p|]|t m| | |]; simpl; auto; try discriminate.
  - destruct (disk w (FilePriceFeed.filename f)); simpl; auto; discriminate.
  - destruct (classify m); simpl; auto; discriminate.
Qed.

Lemma fold_publish_no_price feed events :
  forall r,
    forallb (publishes_no_price feed) events = true ->
    fst r = None ->
    fst (fold_left (publish feed) events r) = None.
Proof.
  induction events as [|e events IH]; intros r H Hr; simpl; [exact Hr|].
  simpl in H. apply andb_prop in H. destruct H as [He Hes].
  apply IH; [exact Hes|]. apply publish_no_price; assumption.
Qed.

Lemma created_feed_is_unset from_number arg expiry tub vox feed w :
  fst (create_price_feed from_number arg expiry tub vox) = inr feed ->
  has_expiry feed = true ->
  finds_a_price w feed = false ->
  reading_of feed = unset
  /\ expired_of feed = true
  /\ fst (fst (get_price w feed)) = Returned None
  /\ count is_expiry_record (snd (get_price w feed)) = 0%nat.
Proof.
  unfold create_price_feed.
  destruct arg as [arg|].
  - destruct (String.eqb _ _).
    + intros [= <-] _ _. cbn -[Z.gtb Z.sub]. unfold GdaxPriceFeed.get_price.
      cbn -[Z.gtb Z.sub]. destruct (_ >? _); auto.
    + destruct (startswith arg "fixed:").
      * destruct (from_number _); simpl; [|discriminate].
        intros [= <-]; discriminate.
      * generalize (slice_from 5 arg). intros path.
        destruct (startswith arg "file:"); cbn [fst]; intros E; inversion E;
          subst feed; clear E; intros _.
        -- cbn -[Z.gtb Z.sub]. unfold FilePriceFeed.get_price.
           destruct (disk w path); try discriminate; intros _;
             cbn -[Z.gtb Z.sub]; destruct (_ >? _); auto.
        -- intros _. cbn -[Z.gtb Z.sub]. unfold SetzerPriceFeed.get_price.
           cbn -[Z.gtb Z.sub]. destruct (_ >? _); auto.
  - destruct tub; simpl; [|discriminate]. intros [= <-]; discriminate.
Qed.

(** X8.  A feed with an expiry comes out of the factory with no reading
    and with the expired flag set, and a call on it as it was made does not
    log "has expired".  From then on, whatever happens to it (failed polls,
    heartbeats, frames of other types, earlier calls), [get_price()] returns
    [None] as long as no price has been published: no poll has succeeded,
    no ticker has come, and no call, this one included, has found the file
    readable. *)
Theorem factory_feed_starts_absent from_number arg expiry tub vox feed events
        w :
  fst (create_price_feed from_number arg expiry tub vox) = inr feed ->
  has_expiry feed = true ->
  forallb (publishes_no_price feed) events = true ->
  finds_a_price w feed = false ->
  reading_of feed = unset
  /\ expired_of feed = true
  /\ fst (fst (get_price w (fst (run events feed)))) = Returned None
  /\ count is_expiry_record (snd (get_price w feed)) = 0%nat.
Proof.
  intros Hc He Hq Hf.
  destruct (created_feed_is_unset _ _ _ _ _ _ w Hc He Hf)
    as (Hr & Hx & _ & Hl).
  split; [exact Hr|]. split; [exact Hx|]. split; [|exact Hl].
  pose proof (run_same_source events feed He) as Hs.
  rewrite get_price_answer by (eapply same_source_has_expiry, Hs).
  rewrite <- (same_source_publish _ _ _ _ Hs).
  rewrite run_reading by exact He.
  assert (fst (publish feed (last_published feed events) (Call w)) = None)
    as Hn.
  { apply publish_no_price.
    - unfold publishes_no_price.
      replace (published_by feed (Call w)) with (@None (Wad.t * Z))
        by (destruct feed; reflexivity).
      rewrite Hf. reflexivity.
    - unfold last_published. apply fold_publish_no_price; [exact Hq|].
      rewrite Hr. reflexivity. }
  unfold unless_expired. rewrite Hn. destruct (_ >? _); reflexivity.
Qed.

Lemma factory_feed_starts_absent_witness :
  let feed := GdaxFeed (GdaxPriceFeed.Build "wss://ws-feed.gdax.com"
                                            "ETH-USD" 30 None 0 true) in
  let events :=
    [Opened; Message 1000 heartbeat_frame; Call (quiet_world 1001);
     Fetched 1002 None; Closed] in
  let w := quiet_world 1005 in
  fst (create_price_feed plain_decimal (Some "gdax-websocket") 30 None None)
  = inr feed
  /\ has_expiry feed = true
  /\ forallb (publishes_no_price feed) events = true
  /\ finds_a_price w feed = false
  /\ reading_of feed = unset
  /\ expired_of feed = true
  /\ fst (fst (get_price w (fst (run events feed)))) = Returned None
  /\ count is_expiry_record (snd (get_price w feed)) = 0%nat.
Proof.
  split; [reflexivity|]. split; [reflexivity|]. split; [reflexivity|].
  split; [reflexivity|].
  apply (factory_feed_starts_absent plain_decimal (Some "gdax-websocket") 30
                                    None None);
    reflexivity.
Defined.

(** X9.  The two prefixes are cut off exactly: for every path,
    [file:<path>] gives the file-backed feed on [<path>], the empty path
    included; and for every text that [Wad.from_number] accepts,
    [fixed:<text>] gives the fixed feed of that number.  Neither starts a
    thread, whatever [tub] and [vox] are. *)
Theorem factory_cuts_the_prefix from_number path text fixed_price expiry tub
        vox :
  from_number text = Some fixed_price ->
  create_price_feed from_number (Some (String.append "file:" path)) expiry
                    tub vox
  = (inr (FileFeed (FilePriceFeed.Build path expiry None 0 true)), [])
  /\ create_price_feed from_number (Some (String.append "fixed:" text)) expiry
                       tub vox
     = (inr (FixedFeed (FixedPriceFeed.Build fixed_price)),
        [Log Info (UsingFixedPrice fixed_price)]).
Proof.
  intros H. split.
  - unfold create_price_feed, startswith. simpl.
    destruct path; reflexivity.
  - unfold create_price_feed, startswith. simpl.
    assert (String.prefix "" text = true) as -> by (destruct text; reflexivity).
    rewrite H. reflexivity.
Qed.

Lemma factory_cuts_the_prefix_witness :
  plain_decimal "0.5" = Some 500000000000000000
  /\ create_price_feed plain_decimal
                       (Some (String.append "file:" "fixed:1")) 30 None None
     = (inr (FileFeed (FilePriceFeed.Build "fixed:1" 30 None 0 true)), [])
  /\ create_price_feed plain_decimal (Some (String.append "fixed:" "0.5")) 30
                       None None
     = (inr (FixedFeed (FixedPriceFeed.Build 500000000000000000)),
        [Log Info (UsingFixedPrice 500000000000000000)]).
Proof.
  split; [reflexivity|].
  apply factory_cuts_the_prefix. reflexivity.
Defined.

(** ** The file-backed feed answers from the file *)

(** X10.  When the look at the file settles the reading, the answer of the
    file-backed feed depends on the file alone, not on what the feed held:
    with no file the call returns [None] at once, whatever the expiry, and
    so does a following call that cannot read the file; with a readable
    file last modified at [mtime] the call returns its price exactly when
    [now - mtime <= expiry]. *)
Theorem file_feed_answers_from_the_file (f : FilePriceFeed.t) now_ later p
        mtime :
  let gone := FilePriceFeed.get_price now_ NoFile f in
  fst (fst gone) = None
  /\ fst (fst (FilePriceFeed.get_price later Unreadable (snd (fst gone))))
     = None
  /\ fst (fst (FilePriceFeed.get_price now_ (Readable p (Some mtime)) f))
     = (if now_ - mtime >? FilePriceFeed.expiry f then None else Some p).
Proof.
  unfold FilePriceFeed.get_price. cbn -[Z.gtb Z.sub].
  split; [|split];
    repeat match goal with
           | |- context [if ?b then _ else _] =>
               destruct b; cbn -[Z.gtb Z.sub]
           end;
    reflexivity.
Qed.

(** X11.  "Price feed updated" is logged when the price read differs from
    the one held, or none is held: after a read of [p], a further read of
    [p] does not log it, whatever the modification times, and a read of
    another price does. *)
Theorem price_update_is_logged_on_change (f : FilePriceFeed.t) p p' mtime
        mtime' :
  p' <> p ->
  let f1 := fst (FilePriceFeed._read_price (Readable p mtime) f) in
  count (fun e => match e with
                  | Log Info (PriceFeedUpdated _) => true
                  | _ => false
                  end)
        (snd (FilePriceFeed._read_price (Readable p mtime') f1)) = 0%nat
  /\ In (Log Info (PriceFeedUpdated p'))
        (snd (FilePriceFeed._read_price (Readable p' mtime') f1))
  /\ In (Log Info (PriceFeedUpdated p))
        (snd (FilePriceFeed._read_price
                (Readable p mtime')
                (fst (FilePriceFeed._read_price NoFile f1)))).
Proof.
  intros Hne.
  assert (FilePriceFeed._price
            (fst (FilePriceFeed._read_price (Readable p mtime) f)) = Some p)
    as Hp by (destruct mtime; reflexivity).
  cbn zeta.
  set (f1 := fst (FilePriceFeed._read_price (Readable p mtime) f)) in *.
  unfold FilePriceFeed._read_price at 1 2 3.
  unfold FilePriceFeed.price_changed. simpl. rewrite Hp.
  unfold Wad.eqb. rewrite Z.eqb_refl.
  destruct (Z.eqb_spec p' p) as [E|_]; [contradiction|]. simpl.
  split; [|split].
  - destruct mtime'; reflexivity.
  - destruct mtime'; simpl; auto 6.
  - destruct mtime'; simpl; auto 6.
Qed.

Lemma price_update_is_logged_on_change_witness :
  let f := FilePriceFeed.__init__ "price.json" 30 in
  let f1 := fst (FilePriceFeed._read_price (Readable 7 (Some 1000)) f) in
  8 <> 7
  /\ count (fun e => match e with
                     | Log Info (PriceFeedUpdated _) => true
                     | _ => false
                     end)
           (snd (FilePriceFeed._read_price (Readable 7 (Some 1005)) f1))
     = 0%nat
  /\ In (Log Info (PriceFeedUpdated 8))
        (snd (FilePriceFeed._read_price (Readable 8 (Some 1005)) f1))
  /\ In (Log Info (PriceFeedUpdated 7))
        (snd (FilePriceFeed._read_price
                (Readable 7 (Some 1005))
                (fst (FilePriceFeed._read_price NoFile f1)))).
Proof.
  split; [discriminate|].
  apply (price_update_is_logged_on_change
           (FilePriceFeed.__init__ "price.json" 30) 7 8 (Some 1000)
           (Some 1005)).
  discriminate.
Defined.
